(** * Advanced_pipeline.py: the sales consolidation pipeline

    A shallow embedding of [src/pipeline/Advanced_pipeline.py].  The script
    reads five sources, checks that Sales and Products are present, joins
    Sales with Products, Discounts and Employees, derives the price columns,
    converts and filters the dates, builds three summaries and writes four
    reports.

    How the script is modelled:
    - what the five reads give is the input ([Sources]): the rows of a
      source, or the exception its [try] block catches;
    - a DataFrame is either [NoColumns] (what [pd.DataFrame()] builds) or a
      [Table] of rows; a file without rows gives a [Table] without rows;
    - the rows of the working frame [df] carry their pandas index label;
    - a nullable cell is an [option]; NaN, None and NaT are [None].  The key
      columns and [quantity] of the input are integers without nulls,
      [sale_date] is text, [unit_price] and [discount_percent] are nullable;
    - integer columns are [Z], price and percentage columns are exact
      rationals [Q] (rounding and overflow of the machine types are not
      modelled), compared with [==];
    - [pd.to_datetime(..., errors='coerce')] is a parameter of the model: it
      converts a whole column, and nothing is assumed about it;
    - the console, the report directory and the exit of the process are
      threaded through a small state-and-exception monad.

    What pandas does, as far as the script relies on it: a left merge keeps
    the left rows in their order, pairs each with its matches in the order
    of the right frame, or once with nulls when it has none, and numbers
    the result afresh; [df.get(column, default)] gives the column when the
    frame has it; [dropna] keeps the index labels; [groupby] lists the
    distinct non-null keys in ascending order and [sum] skips nulls.

    The file has three parts: the script, the vocabulary of the statements,
    and the properties. *)

From Stdlib Require Import ZArith QArith Lia Lqa Ascii.
From stdpp Require Import base option list strings sorting.

Local Open Scope string_scope.
Local Open Scope list_scope.
Local Open Scope Z_scope.

(** ** Tables *)

(** [pd.DataFrame()] has no columns at all; a frame read from a source has
    the columns of its row type and any number of rows. *)
Inductive DataFrame (R : Type) : Type :=
  | NoColumns
  | Table (rows : list R).
Arguments NoColumns {R}.
Arguments Table {R} rows.

(** [frame.empty]: true when either axis has length zero. *)
Definition empty {R} (frame : DataFrame R) : bool :=
  match frame with
  | NoColumns => true
  | Table rows => bool_decide (rows = [])
  end.

(** [len(frame)] *)
Definition len {R} (frame : DataFrame R) : nat :=
  match frame with
  | NoColumns => 0%nat
  | Table rows => length rows
  end.

(** The rows of a frame; a frame without columns has none. *)
Definition rows_of {R} (frame : DataFrame R) : list R :=
  match frame with
  | NoColumns => []
  | Table rows => rows
  end.

(** ** The rows of the sources *)

(** A row of the [customers] table; the script loads it and never looks at
    it again. *)
Module Customer.
Record t := { customer_id : Z }.
End Customer.

(** A row of [products.csv]; [unit_price] is meaningful when the file has
    that column. *)
Module Product.
Record t := { product_id : Z; product_name : string; unit_price : option Q }.
End Product.

(** A row of [sales.csv], with the columns the script uses. *)
Module Sale.
Record t := { product_id : Z; employee_id : Z; quantity : Z; sale_date : string }.
End Sale.

(** A row of [discounts.txt], read with
    [names=["product_id", "discount_percent"]]. *)
Module Discount.
Record t := { product_id : Z; discount_percent : option Q }.
End Discount.

(** A record of the [data] list of the API, with the two columns the
    script selects. *)
Module Employee.
Record t := { id : Z; employee_name : string }.
End Employee.

(** ** Dates *)

(** A converted date; the time of day plays no part in the script. *)
Record Timestamp := { year : Z; month : Z; day : Z }.

(** A calendar month, as [to_period('M')] gives it. *)
Module Period.
Record t := { year : Z; month : Z }.

Definition leb (p q : t) : bool :=
  (year p <? year q) || ((year p =? year q) && (month p <=? month q)).
End Period.

(** [ts.to_period('M')] *)
Definition to_period (ts : Timestamp) : Period.t :=
  {| Period.year := year ts; Period.month := month ts |}.

(** The [sale_date] column holds the text read from the file until line 98
    replaces it by timestamps, [NaT] where the conversion failed. *)
Inductive DateCell :=
  | Text (s : string)
  | Stamp (ts : Timestamp)
  | NaT.

(** A row of the working frame [df], with its index label.  A column that
    the script has not created yet is [None] in every row. *)
Module DfRow.
Record t := {
  index : nat;
  product_id : Z;
  employee_id : Z;
  quantity : Z;
  sale_date : DateCell;
  product_name : option string;
  unit_price : option Q;
  discount_percent : option Q;
  id : option Z;
  employee_name : option string;
  total_price : option Q;
  discounted_price : option Q;
  month : option Period.t
}.

(** [df[column] = ...] on one row: the row with that column replaced. *)
Definition set_index (i : nat) (r : t) : t :=
  {| index := i; product_id := product_id r; employee_id := employee_id r;
     quantity := quantity r; sale_date := sale_date r;
     product_name := product_name r; unit_price := unit_price r;
     discount_percent := discount_percent r; id := id r;
     employee_name := employee_name r; total_price := total_price r;
     discounted_price := discounted_price r; month := month r |}.

Definition set_sale_date (c : DateCell) (r : t) : t :=
  {| index := index r; product_id := product_id r; employee_id := employee_id r;
     quantity := quantity r; sale_date := c;
     product_name := product_name r; unit_price := unit_price r;
     discount_percent := discount_percent r; id := id r;
     employee_name := employee_name r; total_price := total_price r;
     discounted_price := discounted_price r; month := month r |}.

Definition set_unit_price (c : option Q) (r : t) : t :=
  {| index := index r; product_id := product_id r; employee_id := employee_id r;
     quantity := quantity r; sale_date := sale_date r;
     product_name := product_name r; unit_price := c;
     discount_percent := discount_percent r; id := id r;
     employee_name := employee_name r; total_price := total_price r;
     discounted_price := discounted_price r; month := month r |}.

Definition set_discount_percent (c : option Q) (r : t) : t :=
  {| index := index r; product_id := product_id r; employee_id := employee_id r;
     quantity := quantity r; sale_date := sale_date r;
     product_name := product_name r; unit_price := unit_price r;
     discount_percent := c; id := id r;
     employee_name := employee_name r; total_price := total_price r;
     discounted_price := discounted_price r; month := month r |}.

Definition set_employee (i : option Z) (c : option string) (r : t) : t :=
  {| index := index r; product_id := product_id r; employee_id := employee_id r;
     quantity := quantity r; sale_date := sale_date r;
     product_name := product_name r; unit_price := unit_price r;
     discount_percent := discount_percent r; id := i;
     employee_name := c; total_price := total_price r;
     discounted_price := discounted_price r; month := month r |}.

Definition set_total_price (c : option Q) (r : t) : t :=
  {| index := index r; product_id := product_id r; employee_id := employee_id r;
     quantity := quantity r; sale_date := sale_date r;
     product_name := product_name r; unit_price := unit_price r;
     discount_percent := discount_percent r; id := id r;
     employee_name := employee_name r; total_price := c;
     discounted_price := discounted_price r; month := month r |}.

Definition set_discounted_price (c : option Q) (r : t) : t :=
  {| index := index r; product_id := product_id r; employee_id := employee_id r;
     quantity := quantity r; sale_date := sale_date r;
     product_name := product_name r; unit_price := unit_price r;
     discount_percent := discount_percent r; id := id r;
     employee_name := employee_name r; total_price := total_price r;
     discounted_price := c; month := month r |}.

Definition set_month (c : option Period.t) (r : t) : t :=
  {| index := index r; product_id := product_id r; employee_id := employee_id r;
     quantity := quantity r; sale_date := sale_date r;
     product_name := product_name r; unit_price := unit_price r;
     discount_percent := discount_percent r; id := id r;
     employee_name := employee_name r; total_price := total_price r;
     discounted_price := discounted_price r; month := c |}.

(** The Sales columns of a row whose date is still the text of the file. *)
Definition sale (r : t) : option Sale.t :=
  match sale_date r with
  | Text s => Some {| Sale.product_id := product_id r; Sale.employee_id := employee_id r;
                      Sale.quantity := quantity r; Sale.sale_date := s |}
  | _ => None
  end.
End DfRow.

(** ** Column operations *)

(** [series.fillna(value)] on one cell *)
Definition fillna {A} (value : A) (cell : option A) : option A :=
  match cell with
  | Some x => Some x
  | None => Some value
  end.

(** Arithmetic on nullable cells: a null operand gives a null result. *)
Definition cell_mul (a b : option Q) : option Q :=
  x ← a; y ← b; Some (x * y)%Q.

(** The right-hand side of line 95, [total * (1 - discount / 100)]. *)
Definition apply_discount (total discount : option Q) : option Q :=
  t ← total; d ← discount; Some (t * (1 - d / 100))%Q.

(** ** Left merge *)

(** [left.merge(right, how='left')] on one key: the left rows in their
    order, each paired with its matches in the order of [right], or with
    nothing once when it has no match. *)
Definition left_join {L R K} `{EqDecision K}
    (left_on : L → K) (right_on : R → K)
    (left : list L) (right : list R) : list (L * option R) :=
  l ← left;
  match filter (λ r, left_on l = right_on r) right with
  | [] => [(l, None)]
  | matches => (λ r, (l, Some r)) <$> matches
  end.

(** The result of a merge gets a fresh [RangeIndex]. *)
Definition range_index (rows : list DfRow.t) : list DfRow.t :=
  imap DfRow.set_index rows.

(** A Sales row with the columns of the Products row it is merged with. *)
Definition joined_with_product (s : Sale.t) (p : option Product.t) : DfRow.t :=
  {| DfRow.index := 0;
     DfRow.product_id := Sale.product_id s;
     DfRow.employee_id := Sale.employee_id s;
     DfRow.quantity := Sale.quantity s;
     DfRow.sale_date := Text (Sale.sale_date s);
     DfRow.product_name := Product.product_name <$> p;
     DfRow.unit_price := p ≫= Product.unit_price;
     DfRow.discount_percent := None; DfRow.id := None; DfRow.employee_name := None;
     DfRow.total_price := None; DfRow.discounted_price := None; DfRow.month := None |}.

(** Line 83: [sales.merge(products, on="product_id", how="left")] *)
Definition merge_products (sales : list Sale.t) (products : list Product.t) : list DfRow.t :=
  range_index
    ((λ '(s, p), joined_with_product s p)
     <$> left_join Sale.product_id Product.product_id sales products).

(** Line 84: [df.merge(discounts, on="product_id", how="left")] *)
Definition merge_discounts (df : list DfRow.t) (discounts : list Discount.t) : list DfRow.t :=
  range_index
    ((λ '(r, d), DfRow.set_discount_percent (d ≫= Discount.discount_percent) r)
     <$> left_join DfRow.product_id Discount.product_id df discounts).

(** Line 86: [df.merge(employees[['id', 'employee_name']],
    left_on='employee_id', right_on='id', how='left')] *)
Definition merge_employees (df : list DfRow.t) (employees : list Employee.t) : list DfRow.t :=
  range_index
    ((λ '(r, e), DfRow.set_employee (Employee.id <$> e) (Employee.employee_name <$> e) r)
     <$> left_join DfRow.employee_id Employee.id df employees).

(** Lines 83 to 88.  The Employees frame is joined only when it is not
    empty; otherwise the column is the constant "Unknown". *)
Definition merge_data (sales : list Sale.t) (products : list Product.t)
    (discounts : list Discount.t) (employees : DataFrame Employee.t) : list DfRow.t :=
  let df := merge_products sales products in
  let df := merge_discounts df discounts in
  if negb (empty employees) then
    merge_employees df (rows_of employees)
  else
    (λ r, DfRow.set_employee (DfRow.id r) (Some "Unknown") r) <$> df.

(** ** Cleaning and transforming (lines 92 to 95) *)

(** Line 92: [df['discount_percent'] = df['discount_percent'].fillna(0)] *)
Definition fill_discount_percent (df : list DfRow.t) : list DfRow.t :=
  (λ r, DfRow.set_discount_percent (fillna 0%Q (DfRow.discount_percent r)) r) <$> df.

(** Line 93: [df['unit_price'] = df.get('unit_price', 100)].  [df.get]
    returns the column when [df] has one, whatever its cells hold, and the
    scalar 100 only when the column does not exist; [has_unit_price] tells
    whether the Products file had the column. *)
Definition default_unit_price (has_unit_price : bool) (df : list DfRow.t) : list DfRow.t :=
  if has_unit_price then (λ r, DfRow.set_unit_price (DfRow.unit_price r) r) <$> df
  else DfRow.set_unit_price (Some 100%Q) <$> df.

(** Line 94: [df['total_price'] = df['quantity'] * df['unit_price']] *)
Definition compute_total_price (df : list DfRow.t) : list DfRow.t :=
  (λ r, DfRow.set_total_price
          (cell_mul (Some (inject_Z (DfRow.quantity r))) (DfRow.unit_price r)) r) <$> df.

(** Line 95: [df['discounted_price'] =
    df['total_price'] * (1 - df['discount_percent']/100)] *)
Definition compute_discounted_price (df : list DfRow.t) : list DfRow.t :=
  (λ r, DfRow.set_discounted_price
          (apply_discount (DfRow.total_price r) (DfRow.discount_percent r)) r) <$> df.

Definition transform (has_unit_price : bool) (df : list DfRow.t) : list DfRow.t :=
  compute_discounted_price
    (compute_total_price
       (default_unit_price has_unit_price
          (fill_discount_percent df))).

(** ** Dates (lines 98, 99 and 117) *)

(** [df.dropna(subset=['sale_date'])]: the rows whose date is not null,
    with their index labels. *)
Definition notna (c : DateCell) : bool :=
  match c with
  | NaT => false
  | _ => true
  end.

Definition dropna_sale_date (df : list DfRow.t) : list DfRow.t :=
  filter (λ r, notna (DfRow.sale_date r)) df.

(** A value of a datetime column as a cell. *)
Definition date_cell (value : option Timestamp) : DateCell :=
  match value with
  | Some ts => Stamp ts
  | None => NaT
  end.

(** [df['sale_date'].dt.to_period('M')] on one cell *)
Definition month_of (c : DateCell) : option Period.t :=
  match c with
  | Stamp ts => Some (to_period ts)
  | _ => None
  end.

(** Line 117: [df['month'] = df['sale_date'].dt.to_period('M')] *)
Definition assign_month (df : list DfRow.t) : list DfRow.t :=
  (λ r, DfRow.set_month (month_of (DfRow.sale_date r)) r) <$> df.

(** ** Analysis (lines 105 to 120) *)

Module Summary.
Record t := { key : string; total_quantity : Z; total_sales : Q }.
End Summary.

Module Monthly.
Record t := { month : Period.t; total_sales : Q }.
End Monthly.

(** [series.sum()] of the integer column [quantity]. *)
Definition sum_quantity (rows : list DfRow.t) : Z :=
  foldr (λ r acc, DfRow.quantity r + acc) 0 rows.

(** [series.sum()] of [discounted_price]; null cells are skipped. *)
Definition sum_discounted_price (rows : list DfRow.t) : Q :=
  foldr (λ r acc, (default 0 (DfRow.discounted_price r) + acc)%Q) 0%Q rows.

(** [df.groupby(by)]: the keys are the distinct non-null values of the
    column, in ascending order; a row whose key is null is in no group. *)
Definition group_keys {K} `{EqDecision K} (le : relation K) `{!RelDecision le}
    (by_ : DfRow.t → option K) (df : list DfRow.t) : list K :=
  merge_sort le (remove_dups (omap by_ df)).

Definition group {K} `{EqDecision K} (by_ : DfRow.t → option K) (k : K)
    (df : list DfRow.t) : list DfRow.t :=
  filter (λ r, by_ r = Some k) df.

Definition groupby_sales (by_ : DfRow.t → option string) (df : list DfRow.t) : list Summary.t :=
  (λ k, {| Summary.key := k;
           Summary.total_quantity := sum_quantity (group by_ k df);
           Summary.total_sales := sum_discounted_price (group by_ k df) |})
  <$> group_keys String.le by_ df.

Definition period_le (p q : Period.t) : Prop := Period.leb p q.

Global Instance period_le_dec : RelDecision period_le.
Proof. intros p q. unfold period_le. apply _. Defined.

Global Instance period_eq_dec : EqDecision Period.t.
Proof. solve_decision. Defined.

(** Lines 105 to 108 *)
Definition product_sales (df : list DfRow.t) : list Summary.t :=
  groupby_sales DfRow.product_name df.

(** Lines 111 to 114 *)
Definition employee_sales (df : list DfRow.t) : list Summary.t :=
  groupby_sales DfRow.employee_name df.

(** Lines 118 to 120 *)
Definition monthly_sales (df : list DfRow.t) : list Monthly.t :=
  (λ k, {| Monthly.month := k;
           Monthly.total_sales := sum_discounted_price (group DfRow.month k df) |})
  <$> group_keys period_le DfRow.month df.

(** ** The script's effects *)

(** One constructor per [log(...)] call of the script; the timestamp that
    [log] prints in front is left out. *)
Inductive Message :=
  | ConnectingToSqlite
  | LoadedCustomers (n : nat)
  | ErrorReadingSqlite (e : string)
  | ReadingCsvFiles
  | LoadedProductsAndSales (products sales : nat)
  | ErrorReadingCsvs (e : string)
  | ReadingFlatFile
  | LoadedDiscounts (n : nat)
  | ErrorReadingFlatFile (e : string)
  | FetchingEmployees
  | LoadedEmployees (n : nat)
  | ApiReturnedStatus (status_code : Z)
  | ErrorFetchingApi (e : string)
  | ValidatingData
  | CriticalDataMissing
  | MergingData
  | CleaningAndTransforming
  | PerformingAnalysis
  | SavingReports
  | PipelineCompleted.

(** What [to_csv] is given, by report. *)
Inductive Csv :=
  | ProductSales (rows : list Summary.t)
  | EmployeeSales (rows : list Summary.t)
  | MonthlySales (rows : list Monthly.t)
  | FullSalesData (rows : list DfRow.t).

Record World := {
  console : list Message;
  directories : list string;
  files : list (string * Csv)
}.

(** How a statement ends: normally, by [exit(code)], or by an exception
    that nothing catches. *)
Inductive Outcome (A : Type) : Type :=
  | Normal (a : A)
  | SystemExit (code : Z)
  | KeyError (key : string).
Arguments Normal {A} a.
Arguments SystemExit {A} code.
Arguments KeyError {A} key.

Definition Script (A : Type) : Type := World → Outcome A * World.

Global Instance script_ret : MRet Script := λ A a w, (Normal a, w).

Global Instance script_bind : MBind Script := λ A B f m w,
  match m w with
  | (Normal a, w') => f a w'
  | (SystemExit code, w') => (SystemExit code, w')
  | (KeyError key, w') => (KeyError key, w')
  end.

Definition log (message : Message) : Script unit := λ w,
  (Normal (), {| console := console w ++ [message];
                 directories := directories w; files := files w |}).

Definition exit {A} (code : Z) : Script A := λ w, (SystemExit code, w).

Definition raise_KeyError {A} (key : string) : Script A := λ w, (KeyError key, w).

(** [os.makedirs(path, exist_ok=True)] *)
Definition makedirs (path : string) : Script unit := λ w,
  (Normal (), {| console := console w;
                 directories := if bool_decide (path ∈ directories w)
                                then directories w else directories w ++ [path];
                 files := files w |}).

(** [table.to_csv(path, index=False)] *)
Definition to_csv (path : string) (table : Csv) : Script unit := λ w,
  (Normal (), {| console := console w; directories := directories w;
                 files := filter (λ f, f.1 ≠ path) (files w) ++ [(path, table)] |}).

(** The status the process ends with. *)
Definition exit_status {A} (o : Outcome A) : Z :=
  match o with
  | Normal _ => 0
  | SystemExit code => code
  | KeyError _ => 1
  end.

(** ** Sources *)

Definition REPORT_DIR : string := "reports".

(** [os.path.join(directory, name)] *)
Definition path_join (directory name : string) : string :=
  directory +:+ "/" +:+ name.

(** What a read inside a [try] gives: the rows, or the exception. *)
Inductive Read (A : Type) : Type :=
  | Loaded (a : A)
  | Failed (e : string).
Arguments Loaded {A} a.
Arguments Failed {A} e.

(** [products.csv]: its rows, and whether its header has [unit_price]. *)
Record ProductsCsv := {
  has_unit_price : bool;
  product_rows : list Product.t
}.

(** What [requests.get] and [response.json()['data']] give. *)
Inductive ApiResult :=
  | Response (status_code : Z) (data : list Employee.t)
  | RequestFailed (e : string).

Record Sources := {
  sqlite_customers : Read (list Customer.t);
  products_csv : Read ProductsCsv;
  sales_csv : Read (list Sale.t);
  discounts_txt : Read (list Discount.t);
  employees_api : ApiResult
}.

(** Lines 26 to 34 *)
Definition read_customers (src : Sources) : Script (DataFrame Customer.t) :=
  log ConnectingToSqlite;;
  match sqlite_customers src with
  | Loaded rows => log (LoadedCustomers (length rows));; mret (Table rows)
  | Failed e => log (ErrorReadingSqlite e);; mret NoColumns
  end.

(** Lines 38 to 46: the two files are read in one [try]; when either read
    fails, both frames are replaced by [pd.DataFrame()]. *)
Definition read_csv_files (src : Sources)
  : Script (DataFrame Product.t * bool * DataFrame Sale.t) :=
  log ReadingCsvFiles;;
  match products_csv src with
  | Loaded p =>
      match sales_csv src with
      | Loaded s =>
          log (LoadedProductsAndSales (length (product_rows p)) (length s));;
          mret (Table (product_rows p), has_unit_price p, Table s)
      | Failed e => log (ErrorReadingCsvs e);; mret (NoColumns, false, NoColumns)
      end
  | Failed e => log (ErrorReadingCsvs e);; mret (NoColumns, false, NoColumns)
  end.

(** Lines 50 to 56 *)
Definition read_discounts (src : Sources) : Script (DataFrame Discount.t) :=
  log ReadingFlatFile;;
  match discounts_txt src with
  | Loaded rows => log (LoadedDiscounts (length rows));; mret (Table rows)
  | Failed e => log (ErrorReadingFlatFile e);; mret NoColumns
  end.

(** [pd.DataFrame(records)]: a list without records gives a frame without
    columns. *)
Definition from_records {R} (records : list R) : DataFrame R :=
  match records with
  | [] => NoColumns
  | _ => Table records
  end.

(** Lines 59 to 70 *)
Definition fetch_employees (src : Sources) : Script (DataFrame Employee.t) :=
  log FetchingEmployees;;
  match employees_api src with
  | Response status_code data =>
      if bool_decide (status_code = 200) then
        let employees := from_records data in
        log (LoadedEmployees (len employees));; mret employees
      else
        log (ApiReturnedStatus status_code);; mret NoColumns
  | RequestFailed e => log (ErrorFetchingApi e);; mret NoColumns
  end.

(** [series.fillna(0)] on the [discount_percent] column of Discounts. *)
Definition fillna_discount_percent (rows : list Discount.t) : list Discount.t :=
  (λ d, {| Discount.product_id := Discount.product_id d;
           Discount.discount_percent := fillna 0%Q (Discount.discount_percent d) |})
  <$> rows.

(** Line 79: [discounts['discount_percent'] =
    discounts['discount_percent'].fillna(0)].  Reading the column of a frame
    that has no columns raises [KeyError]. *)
Definition fill_missing_discounts (discounts : DataFrame Discount.t)
  : Script (list Discount.t) :=
  match discounts with
  | NoColumns => raise_KeyError "discount_percent"
  | Table rows => mret (fillna_discount_percent rows)
  end.

(** The frames the script holds when line 72 is reached. *)
Record Frames := {
  customers : DataFrame Customer.t;
  products : DataFrame Product.t;
  products_has_unit_price : bool;
  sales : DataFrame Sale.t;
  discounts : DataFrame Discount.t;
  employees : DataFrame Employee.t
}.

(** Lines 10 to 70: the report directory and the four reads. *)
Definition load (src : Sources) : Script Frames :=
  makedirs REPORT_DIR;;
  customers ← read_customers src;
  '(products, has_unit_price, sales) ← read_csv_files src;
  discounts ← read_discounts src;
  employees ← fetch_employees src;
  mret {| customers := customers; products := products;
          products_has_unit_price := has_unit_price; sales := sales;
          discounts := discounts; employees := employees |}.

Section Pipeline.

(** [pd.to_datetime(column, errors='coerce')]: the converted column, with
    [None] for [NaT]. *)
Variable to_datetime : list DateCell → list (option Timestamp).

(** Line 98: [df['sale_date'] = pd.to_datetime(df['sale_date'],
    errors='coerce')].  The assignment aligns the converted column with
    the frame; a row without a converted value gets [NaT]. *)
Definition convert_dates (df : list DfRow.t) : list DfRow.t :=
  let converted := to_datetime (DfRow.sale_date <$> df) in
  imap (λ i r, DfRow.set_sale_date (date_cell (mjoin (converted !! i))) r) df.

(** Lines 73 to 76: the only place where the script gives up. *)
Definition validate (f : Frames) : Script unit :=
  log ValidatingData;;
  if empty (sales f) || empty (products f)
  then log CriticalDataMissing;; exit 1
  else mret ().

(** Lines 78 to 129 *)
Definition process (f : Frames) : Script unit :=
  discounts ← fill_missing_discounts (discounts f);
  log MergingData;;
  let df := merge_data (rows_of (sales f)) (rows_of (products f))
              discounts (employees f) in
  log CleaningAndTransforming;;
  let df := transform (products_has_unit_price f) df in
  let df := dropna_sale_date (convert_dates df) in
  log PerformingAnalysis;;
  let product_sales := product_sales df in
  let employee_sales := employee_sales df in
  let df := assign_month df in
  let monthly_sales := monthly_sales df in
  log SavingReports;;
  to_csv (path_join REPORT_DIR "product_sales.csv") (ProductSales product_sales);;
  to_csv (path_join REPORT_DIR "employee_sales.csv") (EmployeeSales employee_sales);;
  to_csv (path_join REPORT_DIR "monthly_sales.csv") (MonthlySales monthly_sales);;
  to_csv (path_join REPORT_DIR "full_sales_data.csv") (FullSalesData df);;
  log PipelineCompleted.

(** Lines 72 to 129 *)
Definition run (f : Frames) : Script unit :=
  validate f;; process f.

(** The whole script. *)
Definition pipeline (src : Sources) : Script unit :=
  f ← load src; run f.

(** The frame [df] as lines 83 to 99 leave it, from the tables that
    reach the merge (the discounts after line 79). *)
Definition filtered (has_unit_price : bool) (sales : list Sale.t)
    (products : list Product.t) (discounts : list Discount.t)
    (employees : DataFrame Employee.t) : list DfRow.t :=
  dropna_sale_date
    (convert_dates
       (transform has_unit_price
          (merge_data sales products discounts employees))).

(** The frame [df] with its [month] column, as it is written to
    [full_sales_data.csv]. *)
Definition unified (has_unit_price : bool) (sales : list Sale.t)
    (products : list Product.t) (discounts : list Discount.t)
    (employees : DataFrame Employee.t) : list DfRow.t :=
  assign_month (filtered has_unit_price sales products discounts employees).

End Pipeline.

(** The world before the script starts: nothing printed, nothing written. *)
Definition initial : World := {| console := []; directories := []; files := [] |}.

(** ** A date conversion to run the model with *)

(** The conversion of a column of ISO 8601 calendar dates ([YYYY-MM-DD]):
    each such text becomes its timestamp, anything else is coerced to
    [NaT].  The theorems below hold for every conversion; this one is used
    to evaluate the pipeline on concrete tables. *)
Definition digit (c : ascii) : option Z :=
  let n := Z.of_N (Ascii.N_of_ascii c) - 48 in
  if (0 <=? n) && (n <=? 9) then Some n else None.

Definition days_in_month (y m : Z) : Z :=
  if bool_decide (m ∈ [4; 6; 9; 11]) then 30
  else if m =? 2 then
    if ((y mod 4 =? 0) && negb (y mod 100 =? 0)) || (y mod 400 =? 0) then 29 else 28
  else 31.

Definition iso8601 (s : string) : option Timestamp :=
  match String.list_ascii_of_string s with
  | [y1; y2; y3; y4; sep1; m1; m2; sep2; d1; d2] =>
      if bool_decide (sep1 = "-"%char ∧ sep2 = "-"%char) then
        a ← digit y1; b ← digit y2; c ← digit y3; d ← digit y4;
        e ← digit m1; f ← digit m2; g ← digit d1; h ← digit d2;
        let y := 1000 * a + 100 * b + 10 * c + d in
        let m := 10 * e + f in
        let dd := 10 * g + h in
        if (1 <=? m) && (m <=? 12) && (1 <=? dd) && (dd <=? days_in_month y m)
        then Some {| year := y; month := m; day := dd |}
        else None
      else None
  | _ => None
  end.

Definition iso_to_datetime (column : list DateCell) : list (option Timestamp) :=
  (λ c, match c with
        | Text s => iso8601 s
        | Stamp ts => Some ts
        | NaT => None
        end) <$> column.

(** ** The scenarios of the specification *)

Definition widget : Product.t :=
  {| Product.product_id := 1; Product.product_name := "Widget";
     Product.unit_price := Some 50%Q |}.

Definition sale_of_two_widgets : Sale.t :=
  {| Sale.product_id := 1; Sale.employee_id := 9; Sale.quantity := 2;
     Sale.sale_date := "2024-01-05" |}.

(** Scenario A: one sale, one product, a discounts file without rows, no
    employees. *)
Definition scenario_A : Sources :=
  {| sqlite_customers := Loaded [];
     products_csv := Loaded {| has_unit_price := true; product_rows := [widget] |};
     sales_csv := Loaded [sale_of_two_widgets];
     discounts_txt := Loaded [];
     employees_api := Response 200 [] |}.

(** Scenario B: Scenario A with a discount of ten per cent on Widgets. *)
Definition scenario_B : Sources :=
  {| sqlite_customers := sqlite_customers scenario_A;
     products_csv := products_csv scenario_A;
     sales_csv := sales_csv scenario_A;
     discounts_txt := Loaded [ {| Discount.product_id := 1;
                                  Discount.discount_percent := Some 10%Q |} ];
     employees_api := employees_api scenario_A |}.

(** Scenario C: a sale whose date is not a date, between two that are. *)
Definition scenario_C : Sources :=
  {| sqlite_customers := sqlite_customers scenario_A;
     products_csv := products_csv scenario_A;
     sales_csv := Loaded [ sale_of_two_widgets;
                           {| Sale.product_id := 1; Sale.employee_id := 9;
                              Sale.quantity := 5; Sale.sale_date := "not-a-date" |};
                           {| Sale.product_id := 1; Sale.employee_id := 9;
                              Sale.quantity := 3; Sale.sale_date := "2024-02-29" |} ];
     discounts_txt := discounts_txt scenario_A;
     employees_api := employees_api scenario_A |}.

(** Scenario D: a Products file with a header and no rows. *)
Definition scenario_D : Sources :=
  {| sqlite_customers := sqlite_customers scenario_A;
     products_csv := Loaded {| has_unit_price := true; product_rows := [] |};
     sales_csv := sales_csv scenario_A;
     discounts_txt := discounts_txt scenario_A;
     employees_api := employees_api scenario_A |}.

(** A sale of a product that is not in the Products file. *)
Definition sale_of_unlisted_product : Sale.t :=
  {| Sale.product_id := 2; Sale.employee_id := 9; Sale.quantity := 2;
     Sale.sale_date := "2024-01-05" |}.

(** Scenario A with that sale instead of the sale of Widgets. *)
Definition unlisted_product_sources : Sources :=
  {| sqlite_customers := Loaded [];
     products_csv := Loaded {| has_unit_price := true; product_rows := [widget] |};
     sales_csv := Loaded [sale_of_unlisted_product];
     discounts_txt := Loaded [];
     employees_api := Response 200 [] |}.

(** Scenario A, with a discounts file that cannot be read. *)
Definition unreadable_discounts_sources : Sources :=
  {| sqlite_customers := sqlite_customers scenario_A;
     products_csv := products_csv scenario_A;
     sales_csv := sales_csv scenario_A;
     discounts_txt := Failed "No such file or directory: 'data/discounts.txt'";
     employees_api := employees_api scenario_A |}.


(** Two Discounts rows for the Widget, one of them without a percentage. *)
Definition two_discounts_on_widgets : list Discount.t :=
  [ {| Discount.product_id := 1; Discount.discount_percent := Some 10%Q |};
    {| Discount.product_id := 1; Discount.discount_percent := None |} ].

(** An Employees frame with the one employee of the scenarios. *)
Definition one_employee : DataFrame Employee.t :=
  Table [ {| Employee.id := 9; Employee.employee_name := "Ann" |} ].

(** Scenario A with a sale whose date is not a date, and no other sale. *)
Definition no_valid_date_sources : Sources :=
  {| sqlite_customers := sqlite_customers scenario_A;
     products_csv := products_csv scenario_A;
     sales_csv := Loaded [ {| Sale.product_id := 1; Sale.employee_id := 9;
                              Sale.quantity := 5; Sale.sale_date := "not-a-date" |} ];
     discounts_txt := discounts_txt scenario_A;
     employees_api := employees_api scenario_A |}.

(** * The vocabulary of the statements *)

Local Open Scope nat_scope.

(** Rationals are compared up to [==]; a nullable cell likewise. *)
Global Instance Q_equiv : Equiv Q := Qeq.

(** ** Worlds *)

(** The world after the messages have been printed. *)
Definition say (messages : list Message) (w : World) : World :=
  {| console := console w ++ messages; directories := directories w; files := files w |}.

(** The files after [table] has been written to [path]. *)
Definition write (path : string) (table : Csv) (fs : list (string * Csv)) :=
  filter (λ f, f.1 ≠ path) fs ++ [(path, table)].

(** ** Counting the rows of a merge *)

(** How many rows of [right] match the left row [l]. *)
Definition matches {L R K} `{EqDecision K} (left_on : L → K) (right_on : R → K)
    (right : list R) (l : L) : nat :=
  length (filter (λ r, left_on l = right_on r) right).

(** How many rows the left row [l] has in the merge. *)
Definition copies {L R K} `{EqDecision K} (left_on : L → K) (right_on : R → K)
    (right : list R) (l : L) : nat :=
  match matches left_on right_on right l with
  | O => 1
  | n => n
  end.

(** How many merged rows a Sales row has: its matches in Products, in
    Discounts and, when the Employees frame is joined, in Employees, one
    standing for none. *)
Definition multiplicity (products : list Product.t) (discounts : list Discount.t)
    (employees : DataFrame Employee.t) (s : Sale.t) : nat :=
  copies Sale.product_id Product.product_id products s
  * copies Sale.product_id Discount.product_id discounts s
  * (if empty employees then 1
     else copies Sale.employee_id Employee.id (rows_of employees) s).

(** The rows of [l], the i-th one repeated as often as the i-th count
    says. *)
Definition repeated {A} (counts : list nat) (l : list A) : list A :=
  mjoin (zip_with replicate counts l).

(** ** The derived columns of one row *)

(** Lines 92 to 95 on one row. *)
Definition transform_row (has_unit_price : bool) (r : DfRow.t) : DfRow.t :=
  let r := DfRow.set_discount_percent (fillna 0%Q (DfRow.discount_percent r)) r in
  let r := DfRow.set_unit_price
             (if has_unit_price then DfRow.unit_price r else Some 100%Q) r in
  let r := DfRow.set_total_price
             (cell_mul (Some (inject_Z (DfRow.quantity r))) (DfRow.unit_price r)) r in
  DfRow.set_discounted_price
    (apply_discount (DfRow.total_price r) (DfRow.discount_percent r)) r.

(** Lines 92 to 117 on a row whose date converts to [ts]. *)
Definition unified_row (has_unit_price : bool) (ts : Timestamp) (r : DfRow.t) : DfRow.t :=
  DfRow.set_month (Some (to_period ts))
    (DfRow.set_sale_date (Stamp ts) (transform_row has_unit_price r)).

(** ** Sums *)

(** The sum of [val] over a list, as [series.sum()] folds it. *)
Definition total {M A} (op : M → M → M) (unit : M) (val : A → M) (l : list A) : M :=
  foldr (λ x acc, op (val x) acc) unit l.






(** [r] is what a left merge may pair the left row [l] with: a row of
    [right] with the key of [l], or nothing when [right] has no such row. *)
Definition paired {L R K} `{EqDecision K} (left_on : L → K) (right_on : R → K)
    (right : list R) (l : L) (r : option R) : Prop :=
  match r with
  | Some r => r ∈ right ∧ left_on l = right_on r
  | None => ∀ r, r ∈ right → left_on l ≠ right_on r
  end.

(** ** The frames and the reports of a run *)

(** The frames that lines 24 to 70 leave, from what the reads gave. *)
Definition frames_of (src : Sources) : Frames :=
  {| customers :=
       match sqlite_customers src with
       | Loaded rows => Table rows
       | Failed _ => NoColumns
       end;
     products :=
       match products_csv src, sales_csv src with
       | Loaded p, Loaded _ => Table (product_rows p)
       | _, _ => NoColumns
       end;
     products_has_unit_price :=
       match products_csv src, sales_csv src with
       | Loaded p, Loaded _ => has_unit_price p
       | _, _ => false
       end;
     sales :=
       match products_csv src, sales_csv src with
       | Loaded _, Loaded s => Table s
       | _, _ => NoColumns
       end;
     discounts :=
       match discounts_txt src with
       | Loaded rows => Table rows
       | Failed _ => NoColumns
       end;
     employees :=
       match employees_api src with
       | Response status_code data =>
           if bool_decide (status_code = 200%Z) then from_records data else NoColumns
       | RequestFailed _ => NoColumns
       end |}.

(** Both CSV files were read and both have rows. *)
Definition critical_data_loaded (src : Sources) : bool :=
  match products_csv src, sales_csv src with
  | Loaded p, Loaded s => bool_decide (product_rows p ≠ [] ∧ s ≠ [])
  | _, _ => false
  end.

(** The API gave no employee: an exception, a status other than 200, or an
    empty list. *)
Definition api_unavailable (api : ApiResult) : bool :=
  match api with
  | Response status_code data => bool_decide (status_code ≠ 200%Z ∨ data = [])
  | RequestFailed _ => true
  end.

(** The paths of the four reports, in the order they are written. *)
Definition report_paths : list string :=
  [ "reports/product_sales.csv"; "reports/employee_sales.csv";
    "reports/monthly_sales.csv"; "reports/full_sales_data.csv" ].

(** The four reports of the frames [f], whose Discounts frame has the rows
    [rows]. *)
Definition reports (to_datetime : list DateCell → list (option Timestamp))
    (f : Frames) (rows : list Discount.t) : list (string * Csv) :=
  let df := filtered to_datetime (products_has_unit_price f)
              (rows_of (sales f)) (rows_of (products f))
              (fillna_discount_percent rows) (employees f) in
  [ ("reports/product_sales.csv", ProductSales (product_sales df));
    ("reports/employee_sales.csv", EmployeeSales (employee_sales df));
    ("reports/monthly_sales.csv", MonthlySales (monthly_sales (assign_month df)));
    ("reports/full_sales_data.csv", FullSalesData (assign_month df)) ].

(** The files that are not reports of the pipeline. *)
Definition other_files (fs : list (string * Csv)) : list (string * Csv) :=
  filter (λ f, f.1 ∉ report_paths) fs.

(** The sources with another result of the customers query. *)
Definition with_customers (c : Read (list Customer.t)) (src : Sources) : Sources :=
  {| sqlite_customers := c; products_csv := products_csv src;
     sales_csv := sales_csv src; discounts_txt := discounts_txt src;
     employees_api := employees_api src |}.

(** The sources with another result of the API request. *)
Definition with_employees_api (api : ApiResult) (src : Sources) : Sources :=
  {| sqlite_customers := sqlite_customers src; products_csv := products_csv src;
     sales_csv := sales_csv src; discounts_txt := discounts_txt src;
     employees_api := api |}.

(** * Properties *)
Global Instance Q_equivalence : Equivalence (≡@{Q}).
Proof. unfold equiv, Q_equiv. split; [intros ?|intros ??|intros ???]; eauto using Qeq_sym, Qeq_trans, Qeq_refl. Qed.

(** A message that is none of those printed. *)
Ltac not_in_list :=
  let H := fresh in
  intros H;
  repeat (apply elem_of_cons in H as [H|H]; [discriminate H|]);
  by apply elem_of_nil in H.

(** ** Running the script *)

Section Running.
Variable to_datetime : list DateCell → list (option Timestamp).

Lemma validate_closed f w :
  empty (sales f) || empty (products f) = true →
  validate f w = (SystemExit 1, say [ValidatingData; CriticalDataMissing] w).
Proof.
  intros Hgate. unfold validate, mbind, script_bind, log, exit, say; simpl.
  rewrite Hgate. simpl. by rewrite <- app_assoc.
Qed.

Lemma validate_open f w :
  empty (sales f) || empty (products f) = false →
  validate f w = (Normal (), say [ValidatingData] w).
Proof.
  intros Hgate. unfold validate, mbind, script_bind, log, exit, say; simpl.
  by rewrite Hgate.
Qed.

Lemma process_discounts_without_columns f w :
  discounts f = NoColumns →
  process to_datetime f w = (KeyError "discount_percent", w).
Proof. intros Hd. unfold process, mbind, script_bind. by rewrite Hd. Qed.

Lemma process_completes f w rows :
  discounts f = Table rows →
  let df := filtered to_datetime (products_has_unit_price f)
              (rows_of (sales f)) (rows_of (products f))
              (fillna_discount_percent rows) (employees f) in
  process to_datetime f w =
    (Normal (),
     {| console := console w ++
          [MergingData; CleaningAndTransforming;
           PerformingAnalysis; SavingReports; PipelineCompleted];
        directories := directories w;
        files :=
          write "reports/full_sales_data.csv" (FullSalesData (assign_month df))
            (write "reports/monthly_sales.csv" (MonthlySales (monthly_sales (assign_month df)))
               (write "reports/employee_sales.csv" (EmployeeSales (employee_sales df))
                  (write "reports/product_sales.csv" (ProductSales (product_sales df))
                     (files w)))) |}).
Proof.
  intros Hd df. unfold process, mbind, script_bind, log; simpl.
  rewrite Hd. simpl. unfold to_csv, write; simpl.
  rewrite <- !app_assoc. reflexivity.
Qed.

Lemma load_returns src w :
  ∃ f w1, load src w = (Normal f, w1) ∧ files w1 = files w.
Proof.
  unfold load, read_customers, read_csv_files, read_discounts, fetch_employees,
    mbind, script_bind, log, makedirs; simpl.
  destruct (sqlite_customers src), (products_csv src), (sales_csv src),
    (discounts_txt src), (employees_api src) as [code data|];
    simpl; try destruct (bool_decide (code = 200%Z)); simpl; eauto.
Qed.
(** A completed run writes the four reports; the last one is the frame
    [unified]. *)
Lemma pipeline_writes_unified src w f w1 rows :
  load src w = (Normal f, w1) →
  empty (sales f) || empty (products f) = false →
  discounts f = Table rows →
  let df := filtered to_datetime (products_has_unit_price f)
              (rows_of (sales f)) (rows_of (products f))
              (fillna_discount_percent rows) (employees f) in
  ∃ w2,
    pipeline to_datetime src w = (Normal (), w2) ∧
    files w2 =
      write "reports/full_sales_data.csv"
        (FullSalesData (unified to_datetime (products_has_unit_price f)
                          (rows_of (sales f)) (rows_of (products f))
                          (fillna_discount_percent rows) (employees f)))
        (write "reports/monthly_sales.csv" (MonthlySales (monthly_sales (assign_month df)))
           (write "reports/employee_sales.csv" (EmployeeSales (employee_sales df))
              (write "reports/product_sales.csv" (ProductSales (product_sales df))
                 (files w)))).
Proof.
  intros Hload Hgate Hd df.
  destruct (load_returns src w) as (f' & w1' & Hload' & Hfiles).
  rewrite Hload in Hload'. injection Hload' as <- <-.
  unfold pipeline, run, mbind, script_bind. rewrite Hload.
  rewrite validate_open by done.
  rewrite (process_completes f _ rows Hd).
  eexists. split; [reflexivity|]. simpl. by rewrite Hfiles.
Qed.

End Running.

(** ** Lists of repeated rows *)

Section Repeats.
Context {A B : Type}.
Implicit Types (l : list A) (n : A → nat).

Lemma fmap_bind_replicate (g : A → B) n l :
  g <$> (l ≫= λ x, replicate (n x) x) = l ≫= λ x, replicate (n x) (g x).
Proof.
  induction l as [|x l IH]; [done|].
  rewrite !bind_cons, fmap_app, IH. by rewrite fmap_replicate.
Qed.

Lemma bind_fmap_replicate (g : A → B) (m : B → nat) l :
  (g <$> l) ≫= (λ y, replicate (m y) y) = l ≫= λ x, replicate (m (g x)) (g x).
Proof.
  induction l as [|x l IH]; [done|].
  by rewrite fmap_cons, !bind_cons, IH.
Qed.

Lemma replicate_bind_replicate (m : A → nat) k x :
  replicate k x ≫= (λ y, replicate (m y) y) = replicate (k * m x) x.
Proof.
  induction k as [|k IH]; [done|].
  change (replicate (S k) x) with (x :: replicate k x).
  change (S k * m x) with (m x + k * m x).
  by rewrite bind_cons, IH, replicate_add.
Qed.

Lemma sublist_replicate_inv k (x : A) l :
  l `sublist_of` replicate k x → ∃ j, j ≤ k ∧ l = replicate j x.
Proof.
  revert l. induction k as [|k IH]; intros l Hl; simpl in Hl.
  - apply sublist_nil_r in Hl as ->. by exists 0.
  - apply sublist_cons_r in Hl as [Hl|(l' & -> & Hl)].
    + destruct (IH _ Hl) as (j & ? & ->). exists j. split; [lia|done].
    + destruct (IH _ Hl) as (j & ? & ->). exists (S j). split; [lia|done].
Qed.
End Repeats.

Lemma sublist_repeated {A B} (g : A → B) (n : A → nat) (l : list A) (k : list B) :
  k `sublist_of` (l ≫= λ x, replicate (n x) (g x)) →
  ∃ counts, length counts = length l ∧ Forall2 (λ c x, c ≤ n x) counts l ∧
            k = repeated counts (g <$> l).
Proof.
  revert k. induction l as [|x l IH]; intros k Hk.
  - apply sublist_nil_r in Hk as ->. by exists [].
  - rewrite bind_cons in Hk.
    apply sublist_app_r in Hk as (k1 & k2 & -> & Hk1 & Hk2).
    apply sublist_replicate_inv in Hk1 as (j & Hj & ->).
    destruct (IH _ Hk2) as (counts & Hlen & Hle & ->).
    exists (j :: counts). split_and!; [simpl; lia|by constructor|done].
Qed.

(** ** The left merge keeps the left rows, in order *)

Section Join.
Context {L R K : Type} `{EqDecision K}.
Variables (left_on : L → K) (right_on : R → K).

Lemma fst_left_join left right :
  fst <$> left_join left_on right_on left right
  = left ≫= λ l, replicate (copies left_on right_on right l) l.
Proof.
  unfold left_join. induction left as [|l left IH]; [done|].
  rewrite !bind_cons, fmap_app, IH. f_equal.
  unfold copies, matches.
  destruct (filter _ right) as [|r ms]; [done|].
  rewrite <- list_fmap_compose.
  change (match length (r :: ms) with O => 1 | S n => S n end)
    with (length (r :: ms)).
  by apply const_fmap.
Qed.

Lemma matches_unique right l :
  NoDup (right_on <$> right) → matches left_on right_on right l ≤ 1.
Proof.
  unfold matches. induction right as [|r right IH]; intros Hnd; [simpl; lia|].
  rewrite fmap_cons in Hnd. apply NoDup_cons in Hnd as [Hr Hnd].
  rewrite filter_cons. destruct (decide (left_on l = right_on r)) as [Heq|];
    [|by apply IH].
  destruct (filter (λ r0, left_on l = right_on r0) right) as [|r' ms] eqn:Hms;
    [simpl; lia|].
  assert (r' ∈ filter (λ r0, left_on l = right_on r0) right) as Hin
    by (rewrite Hms; left).
  apply list_elem_of_filter in Hin as [Hkey Hin].
  destruct Hr. rewrite <- Heq, Hkey. by apply list_elem_of_fmap_2.
Qed.

Lemma copies_unique right l :
  NoDup (right_on <$> right) → copies left_on right_on right l = 1.
Proof.
  intros Hnd. unfold copies. pose proof (matches_unique right l Hnd).
  destruct (matches left_on right_on right l) as [|[|n]]; [done..|lia].
Qed.

End Join.

(** ** The merges, seen through the columns they leave alone *)

Lemma fmap_range_index {B} (f : DfRow.t → B) rows :
  (∀ i r, f (DfRow.set_index i r) = f r) →
  f <$> range_index rows = f <$> rows.
Proof.
  intros Hf. unfold range_index. rewrite fmap_imap, <- imap_const.
  apply imap_ext. intros i r _. apply Hf.
Qed.

Lemma index_range_index rows :
  DfRow.index <$> range_index rows = seq 0 (length rows).
Proof.
  unfold range_index. rewrite fmap_imap.
  rewrite <- (list_fmap_id (seq 0 (length rows))).
  by rewrite <- (imap_seq_0 rows id).
Qed.

Lemma length_range_index rows : length (range_index rows) = length rows.
Proof. apply length_imap. Qed.

Lemma fmap_joined {L R K B C} `{EqDecision K} (left_on : L → K) (right_on : R → K)
    (make : L → option R → C) (f : C → B) (g : L → B) left right :
  (∀ l r, f (make l r) = g l) →
  f <$> ((λ '(l, r), make l r) <$> left_join left_on right_on left right)
  = left ≫= λ l, replicate (copies left_on right_on right l) (g l).
Proof.
  intros Hf. rewrite <- fmap_bind_replicate, <- fst_left_join.
  rewrite <- !list_fmap_compose. apply list_fmap_ext. intros _ [l r] _. apply Hf.
Qed.

Section Merges.
Context {B : Type} (f : DfRow.t → B).
Hypothesis f_index : ∀ i r, f (DfRow.set_index i r) = f r.

Lemma fmap_merge_products (g : Sale.t → B) sales products :
  (∀ s p, f (joined_with_product s p) = g s) →
  f <$> merge_products sales products
  = sales ≫= λ s, replicate (copies Sale.product_id Product.product_id products s) (g s).
Proof.
  intros Hf. unfold merge_products.
  rewrite fmap_range_index by done. by apply fmap_joined.
Qed.

Lemma fmap_merge_discounts df discounts :
  (∀ c r, f (DfRow.set_discount_percent c r) = f r) →
  f <$> merge_discounts df discounts
  = df ≫= λ r, replicate (copies DfRow.product_id Discount.product_id discounts r) (f r).
Proof.
  intros Hf. unfold merge_discounts.
  rewrite fmap_range_index by done.
  apply (fmap_joined _ _ (λ r d, DfRow.set_discount_percent (d ≫= Discount.discount_percent) r)).
  intros; apply Hf.
Qed.

Lemma fmap_merge_employees df employees :
  (∀ i c r, f (DfRow.set_employee i c r) = f r) →
  f <$> merge_employees df employees
  = df ≫= λ r, replicate (copies DfRow.employee_id Employee.id employees r) (f r).
Proof.
  intros Hf. unfold merge_employees.
  rewrite fmap_range_index by done.
  apply (fmap_joined _ _ (λ r e, DfRow.set_employee (Employee.id <$> e)
                                   (Employee.employee_name <$> e) r)).
  intros; apply Hf.
Qed.
End Merges.

(** ** Every merged row traces to one Sales row *)

Lemma bind_bind {A B C} (f : A → list B) (g : B → list C) (l : list A) :
  (l ≫= f) ≫= g = l ≫= λ x, f x ≫= g.
Proof.
  induction l as [|x l IH]; [done|]. by rewrite !bind_cons, bind_app, IH.
Qed.

Lemma trace_through_join (n : DfRow.t → nat) (n' a : Sale.t → nat) df sales :
  DfRow.sale <$> df = sales ≫= (λ s, replicate (a s) (Some s)) →
  (∀ r s, DfRow.sale r = Some s → n r = n' s) →
  df ≫= (λ r, replicate (n r) (DfRow.sale r))
  = sales ≫= λ s, replicate (a s * n' s) (Some s).
Proof.
  intros Hdf Hn.
  transitivity ((DfRow.sale <$> df) ≫= λ y, replicate (from_option n' 0 y) y).
  - rewrite bind_fmap_replicate. apply Forall_bind_ext, Forall_forall.
    intros r Hr. apply (list_elem_of_fmap_2 DfRow.sale) in Hr.
    rewrite Hdf in Hr. apply list_elem_of_bind in Hr as (s & Hs & _).
    apply elem_of_replicate_inv in Hs. rewrite Hs. simpl.
    by rewrite (Hn r s).
  - rewrite Hdf, bind_bind. apply list_bind_ext; [|done].
    intros s. by rewrite replicate_bind_replicate.
Qed.

Lemma sale_set_index i r : DfRow.sale (DfRow.set_index i r) = DfRow.sale r.
Proof. done. Qed.

Lemma copies_ext {L L' R K} `{EqDecision K} (left_on : L → K) (left_on' : L' → K)
    (right_on : R → K) right l l' :
  left_on l = left_on' l' →
  copies left_on right_on right l = copies left_on' right_on right l'.
Proof. intros Heq. unfold copies, matches. by rewrite Heq. Qed.

Lemma sale_product_id r s : DfRow.sale r = Some s → DfRow.product_id r = Sale.product_id s.
Proof. unfold DfRow.sale. destruct (DfRow.sale_date r); naive_solver. Qed.

Lemma sale_employee_id r s : DfRow.sale r = Some s → DfRow.employee_id r = Sale.employee_id s.
Proof. unfold DfRow.sale. destruct (DfRow.sale_date r); naive_solver. Qed.

Lemma sale_joined_with_product s p : DfRow.sale (joined_with_product s p) = Some s.
Proof. by destruct s. Qed.

Lemma sale_merge_data sales products discounts employees :
  DfRow.sale <$> merge_data sales products discounts employees
  = sales ≫= λ s, replicate (multiplicity products discounts employees s) (Some s).
Proof.
  unfold merge_data, multiplicity.
  pose proof (fmap_merge_products DfRow.sale sale_set_index Some sales products
                sale_joined_with_product) as Hp.
  pose proof (fmap_merge_discounts DfRow.sale sale_set_index
                (merge_products sales products) discounts (λ _ _, eq_refl)) as Hd.
  rewrite (trace_through_join _
             (copies Sale.product_id Discount.product_id discounts) _ _ _ Hp) in Hd
    by (intros r s Hs; apply copies_ext, sale_product_id, Hs).
  destruct (empty employees); simpl.
  - rewrite <- list_fmap_compose.
    rewrite (list_fmap_ext _ DfRow.sale) by done.
    rewrite Hd. apply list_bind_ext; [|done]. intros s. f_equal. lia.
  - rewrite (fmap_merge_employees DfRow.sale sale_set_index) by done.
    apply trace_through_join; [done|].
    intros r s Hs. apply copies_ext, sale_employee_id, Hs.
Qed.

(** ** The frame after cleaning, row by row *)

Lemma transform_rows has_unit_price df :
  transform has_unit_price df = transform_row has_unit_price <$> df.
Proof.
  unfold transform, compute_discounted_price, compute_total_price,
    default_unit_price, fill_discount_percent.
  destruct has_unit_price; by rewrite <- !list_fmap_compose.
Qed.

Lemma index_merge_data sales products discounts employees :
  let merged := merge_data sales products discounts employees in
  DfRow.index <$> merged = seq 0 (length merged).
Proof.
  unfold merge_data. destruct (empty employees); simpl.
  - rewrite <- list_fmap_compose, length_fmap.
    rewrite (list_fmap_ext _ DfRow.index) by done.
    unfold merge_discounts. by rewrite index_range_index, length_range_index.
  - unfold merge_employees. by rewrite index_range_index, length_range_index.
Qed.

Lemma index_is_position (df : list DfRow.t) i r :
  DfRow.index <$> df = seq 0 (length df) → df !! i = Some r → DfRow.index r = i.
Proof.
  intros Hidx Hr.
  assert ((DfRow.index <$> df) !! i = Some (DfRow.index r)) as Hi
    by (by rewrite list_lookup_fmap, Hr).
  rewrite Hidx in Hi. by apply lookup_seq in Hi as [-> _].
Qed.

Lemma month_after_dropna (cell : DfRow.t → option Timestamp) (h : DfRow.t → DfRow.t) df :
  assign_month
    (dropna_sale_date ((λ r, DfRow.set_sale_date (date_cell (cell r)) (h r)) <$> df))
  = omap (λ r, (λ ts, DfRow.set_month (Some (to_period ts))
                        (DfRow.set_sale_date (Stamp ts) (h r))) <$> cell r) df.
Proof.
  unfold assign_month, dropna_sale_date.
  induction df as [|r df IH]; [done|].
  csimpl. rewrite filter_cons.
  destruct (cell r) as [ts|]; csimpl; [|done].
  by rewrite IH.
Qed.

Section Unified.
Variable to_datetime : list DateCell → list (option Timestamp).
Variables (has_unit_price : bool) (sales : list Sale.t) (products : list Product.t)
  (discounts : list Discount.t) (employees : DataFrame Employee.t).

Let merged := merge_data sales products discounts employees.
Let converted := to_datetime (DfRow.sale_date <$> merged).

(** The written frame has one row for each merged row whose date
    converts, and nothing else. *)
Lemma unified_rows :
  unified to_datetime has_unit_price sales products discounts employees
  = omap (λ r, (λ ts, unified_row has_unit_price ts r)
                 <$> mjoin (converted !! DfRow.index r)) merged.
Proof.
  unfold unified, filtered, convert_dates. fold merged.
  rewrite transform_rows, <- list_fmap_compose.
  rewrite (list_fmap_ext _ DfRow.sale_date merged) by done. fold converted.
  rewrite imap_fmap.
  rewrite (imap_ext _ (const (λ r, DfRow.set_sale_date
              (date_cell (mjoin (converted !! DfRow.index r)))
              (transform_row has_unit_price r)))).
  - rewrite imap_const. apply month_after_dropna.
  - intros i r Hr. simpl.
    by rewrite (index_is_position merged i r
                  (index_merge_data sales products discounts employees) Hr).
Qed.
End Unified.

(** ** Scenario A *)

(** C1.  Scenario A: with one sale of two Widgets at 50 on 2024-01-05, a
    discounts file without rows and no employees, the pipeline writes
    exactly one unified record (product_name "Widget", unit_price 50,
    discount_percent 0, total_price 100, discounted_price 100,
    employee_name "Unknown", month 2024-01) and the product summary
    [{Widget, 2, 100}].  The date conversion is any one that reads
    "2024-01-05" as that day. *)
Theorem scenario_A_reports (to_datetime : list DateCell → list (option Timestamp)) :
  to_datetime [Text "2024-01-05"] = [Some {| year := 2024; month := 1; day := 5 |}] →
  ∃ w u p employee_rows monthly_rows,
    pipeline to_datetime scenario_A initial = (Normal (), w) ∧
    files w = [("reports/product_sales.csv", ProductSales [p]);
               ("reports/employee_sales.csv", EmployeeSales employee_rows);
               ("reports/monthly_sales.csv", MonthlySales monthly_rows);
               ("reports/full_sales_data.csv", FullSalesData [u])] ∧
    DfRow.product_name u = Some "Widget" ∧
    DfRow.unit_price u ≡ Some 50%Q ∧
    DfRow.discount_percent u ≡ Some 0%Q ∧
    DfRow.total_price u ≡ Some 100%Q ∧
    DfRow.discounted_price u ≡ Some 100%Q ∧
    DfRow.employee_name u = Some "Unknown" ∧
    DfRow.month u = Some {| Period.year := 2024; Period.month := 1 |} ∧
    Summary.key p = "Widget" ∧
    Summary.total_quantity p = 2%Z ∧
    Summary.total_sales p ≡ 100%Q.
Proof.
  intros Hdate.
  destruct (pipeline to_datetime scenario_A initial) as [o w] eqn:Hrun.
  vm_compute in Hrun. rewrite Hdate in Hrun. vm_compute in Hrun.
  injection Hrun as <- <-.
  eexists _, _, _, _, _. split; [reflexivity|]. split; [reflexivity|].
  simpl. split_and!; try reflexivity; by constructor.
Qed.

Lemma scenario_A_reports_iso :
  iso_to_datetime [Text "2024-01-05"] = [Some {| year := 2024; month := 1; day := 5 |}] ∧
  ∃ w u p employee_rows monthly_rows,
    pipeline iso_to_datetime scenario_A initial = (Normal (), w) ∧
    files w = [("reports/product_sales.csv", ProductSales [p]);
               ("reports/employee_sales.csv", EmployeeSales employee_rows);
               ("reports/monthly_sales.csv", MonthlySales monthly_rows);
               ("reports/full_sales_data.csv", FullSalesData [u])] ∧
    DfRow.product_name u = Some "Widget" ∧
    DfRow.unit_price u ≡ Some 50%Q ∧
    DfRow.discount_percent u ≡ Some 0%Q ∧
    DfRow.total_price u ≡ Some 100%Q ∧
    DfRow.discounted_price u ≡ Some 100%Q ∧
    DfRow.employee_name u = Some "Unknown" ∧
    DfRow.month u = Some {| Period.year := 2024; Period.month := 1 |} ∧
    Summary.key p = "Widget" ∧
    Summary.total_quantity p = 2%Z ∧
    Summary.total_sales p ≡ 100%Q.
Proof.
  split; [reflexivity|].
  apply (scenario_A_reports iso_to_datetime). reflexivity.
Defined.


(** ** The validation gate *)

(** C2.  Whatever the sources give, the reads return; when Sales or
    Products is then empty the pipeline stops with exit status 1 right
    after the two messages of the gate, before any merge, transform or
    aggregation, and the report files are as they were; when both are
    non-empty the gate returns normally and the pipeline goes on with
    line 79 and what follows. *)
Theorem validation_gate (to_datetime : list DateCell → list (option Timestamp))
    (src : Sources) (w : World) :
  ∃ f w1, load src w = (Normal f, w1) ∧ files w1 = files w ∧
    if empty (sales f) || empty (products f) then
      ∃ w2, pipeline to_datetime src w = (SystemExit 1, w2) ∧
            exit_status (SystemExit (A:=unit) 1) ≠ 0%Z ∧
            console w2 = console w1 ++ [ValidatingData; CriticalDataMissing] ∧
            files w2 = files w
    else
      validate f w1 = (Normal (), say [ValidatingData] w1) ∧
      pipeline to_datetime src w = process to_datetime f (say [ValidatingData] w1).
Proof.
  destruct (load_returns src w) as (f & w1 & Hload & Hfiles).
  exists f, w1. split_and!; [done..|].
  unfold pipeline, run, mbind, script_bind. rewrite Hload.
  destruct (empty (sales f) || empty (products f)) eqn:Hgate.
  - rewrite validate_closed by done. eexists. split_and!; done.
  - by rewrite validate_open.
Qed.

(** ** Rows without a product, and a discounts file that cannot be read *)

(** C3.  The code on a sale whose product_id matches no Products row, the
    Products file having its unit_price column: the record is written with
    a null unit_price (and so a null total_price and discounted_price),
    not with the default 100. *)
Theorem unmatched_row_keeps_null_unit_price :
  ∃ w u,
    pipeline iso_to_datetime unlisted_product_sources initial = (Normal (), w) ∧
    last (files w) = Some ("reports/full_sales_data.csv", FullSalesData [u]) ∧
    DfRow.unit_price u = None ∧
    DfRow.total_price u = None ∧
    DfRow.discounted_price u = None ∧
    DfRow.discount_percent u ≡ Some 0%Q.
Proof.
  eexists _, _. split; [vm_compute; reflexivity|].
  split; [reflexivity|]. by split_and!.
Qed.

(** C4.  The code when the read of the discounts file fails: the frame
    that replaces it has no columns, the gate passes, and line 79 raises
    [KeyError] for [discount_percent]; nothing is merged and no report is
    written. *)
Theorem unreadable_discounts_raise :
  ∃ w,
    (pipeline iso_to_datetime unreadable_discounts_sources initial
     = (KeyError "discount_percent", w)) ∧
    files w = [] ∧
    (MergingData ∉ console w) ∧
    (CriticalDataMissing ∉ console w).
Proof.
  eexists. split; [vm_compute; reflexivity|].
  split; [done|]. split; simpl; not_in_list.
Qed.

(** ** Join cardinality *)

(** C6.  When product_id is unique in Products and id is unique in
    Employees, the merged frame (before the date filter), read through its
    Sales columns, is the Sales table with each row repeated as many times
    as Discounts has rows for its product_id, once when it has none: the
    Product and Employee joins neither drop nor multiply a sale. *)
Theorem join_cardinality (sales : list Sale.t) (products : list Product.t)
    (discounts : list Discount.t) (employees : DataFrame Employee.t) :
  NoDup (Product.product_id <$> products) →
  NoDup (Employee.id <$> rows_of employees) →
  DfRow.sale <$> merge_data sales products discounts employees
  = sales ≫= λ s,
      let matching :=
        filter (λ d, Sale.product_id s = Discount.product_id d) discounts in
      replicate (if decide (matching = []) then 1 else length matching) (Some s).
Proof.
  intros Hproducts Hemployees. rewrite sale_merge_data.
  apply list_bind_ext; [|done]. intros s. simpl. f_equal.
  unfold multiplicity. rewrite (copies_unique _ _ products) by done.
  assert ((if empty employees then 1
           else copies Sale.employee_id Employee.id (rows_of employees) s) = 1) as ->.
  { destruct (empty employees); [done|]. by apply copies_unique. }
  unfold copies, matches.
  destruct (filter _ discounts) as [|d matching]; simpl; [done|lia].
Qed.

Lemma join_cardinality_on_two_sales :
  NoDup (Product.product_id <$> [widget]) ∧
  NoDup (Employee.id <$> rows_of one_employee) ∧
  DfRow.sale <$> merge_data [sale_of_two_widgets; sale_of_unlisted_product]
                 [widget] two_discounts_on_widgets one_employee
  = [Some sale_of_two_widgets; Some sale_of_two_widgets;
     Some sale_of_unlisted_product].
Proof.
  split; [apply NoDup_singleton|]. split; [apply NoDup_singleton|].
  apply (join_cardinality [sale_of_two_widgets; sale_of_unlisted_product]
           [widget] two_discounts_on_widgets one_employee);
    apply NoDup_singleton.
Defined.

(** ** The date filter *)

Lemma index_unified_row has_unit_price ts r :
  DfRow.index (unified_row has_unit_price ts r) = DfRow.index r.
Proof. done. Qed.

Lemma index_omap (cell : nat → option Timestamp) (make : Timestamp → DfRow.t → DfRow.t)
    (df : list DfRow.t) :
  (∀ ts r, DfRow.index (make ts r) = DfRow.index r) →
  DfRow.index <$> omap (λ r, (λ ts, make ts r) <$> cell (DfRow.index r)) df
  = filter (λ i, is_Some (cell i)) (DfRow.index <$> df).
Proof.
  intros Hmake. induction df as [|r df IH]; [done|].
  csimpl. rewrite filter_cons.
  destruct (cell (DfRow.index r)) as [ts|] eqn:Hcell; csimpl; [|done].
  by rewrite Hmake, IH.
Qed.

Lemma is_Some_mjoin {A} (o : option (option A)) :
  is_Some (mjoin o) ↔ ∃ x, o = Some (Some x).
Proof.
  destruct o as [[x|]|]; simpl; split; try (by intros [??]); eauto.
Qed.

Section DateFilter.
Variable to_datetime : list DateCell → list (option Timestamp).
Variables (has_unit_price : bool) (sales : list Sale.t) (products : list Product.t)
  (discounts : list Discount.t) (employees : DataFrame Employee.t).

Let merged := merge_data sales products discounts employees.
Let converted := to_datetime (DfRow.sale_date <$> merged).
Let df := unified to_datetime has_unit_price sales products discounts employees.

Lemma index_unified :
  DfRow.index <$> df
  = filter (λ i, is_Some (mjoin (converted !! i))) (seq 0 (length merged)).
Proof.
  unfold df. rewrite unified_rows. fold merged converted.
  rewrite (index_omap (λ i, mjoin (converted !! i))
             (unified_row has_unit_price)) by done.
  pose proof (index_merge_data sales products discounts employees) as Hidx.
  cbv zeta in Hidx. fold merged in Hidx. by rewrite Hidx.
Qed.

Lemma unified_row_origin u :
  u ∈ df →
  ∃ r ts, merged !! DfRow.index u = Some r ∧
          converted !! DfRow.index u = Some (Some ts) ∧
          u = unified_row has_unit_price ts r.
Proof.
  intros Hu. unfold df in Hu. rewrite unified_rows in Hu.
  apply list_elem_of_omap in Hu as (r & Hr & Hu).
  fold merged converted in Hu.
  destruct (mjoin (converted !! DfRow.index r)) as [ts|] eqn:Hts; [|done].
  injection Hu as <-. rewrite index_unified_row.
  apply list_elem_of_lookup in Hr as [i Hr].
  rewrite (index_is_position merged i r
             (index_merge_data sales products discounts employees) Hr) in *.
  exists r, ts. split_and!; [done| |done].
  by destruct (converted !! i) as [[?|]|]; simplify_eq/=.
Qed.

End DateFilter.

(** C7.  A merged row has a row in the written frame exactly when the
    conversion of its sale_date gives a timestamp: the index labels of the
    written frame are those of the merged rows whose date converts, each
    once and in order; every written row is the merged row of its label
    with the derived columns; rows whose date is coerced to NaT are absent,
    and no other row is. *)
Theorem date_filter (to_datetime : list DateCell → list (option Timestamp))
    (has_unit_price : bool) (sales : list Sale.t) (products : list Product.t)
    (discounts : list Discount.t) (employees : DataFrame Employee.t) :
  let merged := merge_data sales products discounts employees in
  let converted := to_datetime (DfRow.sale_date <$> merged) in
  let df := unified to_datetime has_unit_price sales products discounts employees in
  (∀ i, i < length merged →
        i ∈ DfRow.index <$> df ↔ ∃ ts, converted !! i = Some (Some ts)) ∧
  DfRow.index <$> df
  = filter (λ i, is_Some (mjoin (converted !! i))) (seq 0 (length merged)) ∧
  (∀ u, u ∈ df →
        ∃ r ts, merged !! DfRow.index u = Some r ∧
                converted !! DfRow.index u = Some (Some ts) ∧
                u = unified_row has_unit_price ts r).
Proof.
  intros merged converted df. split_and!.
  - intros i Hi. unfold df. rewrite index_unified.
    rewrite list_elem_of_filter, elem_of_seq, is_Some_mjoin.
    fold merged converted.
    split; [intros [Hts _]; exact Hts|]. intros Hts. split; [exact Hts|lia].
  - apply index_unified.
  - apply unified_row_origin.
Qed.

(** ** Order *)

Lemma lookup_positions {A B} (f : A → option B) (l : list A) :
  (λ i, l !! i ≫= f) <$> seq 0 (length l) = f <$> l.
Proof.
  apply list_eq. intros i. rewrite !list_lookup_fmap.
  destruct (decide (i < length l)) as [Hi|Hi].
  - rewrite lookup_seq_lt by done. simpl.
    destruct (lookup_lt_is_Some_2 l i Hi) as [x Hx]. by rewrite Hx.
  - rewrite lookup_seq_ge by lia. by rewrite lookup_ge_None_2 by lia.
Qed.

(** C10.  Reading the written frame from top to bottom and tracing each
    row, through its index label, to the merged row and from there to the
    Sales row, gives the Sales table in its own order, each row repeated
    as many times as it has surviving records (possibly none): the joins
    and the date filter never reorder rows. *)
Theorem sales_order_preserved (to_datetime : list DateCell → list (option Timestamp))
    (has_unit_price : bool) (sales : list Sale.t) (products : list Product.t)
    (discounts : list Discount.t) (employees : DataFrame Employee.t) :
  let merged := merge_data sales products discounts employees in
  let df := unified to_datetime has_unit_price sales products discounts employees in
  ∃ counts,
    length counts = length sales ∧
    Forall2 (λ c s, c ≤ multiplicity products discounts employees s) counts sales ∧
    (λ u, merged !! DfRow.index u ≫= DfRow.sale) <$> df
    = repeated counts (Some <$> sales).
Proof.
  intros merged df.
  apply (sublist_repeated Some (multiplicity products discounts employees)).
  rewrite <- sale_merge_data. fold merged.
  rewrite <- (lookup_positions DfRow.sale merged).
  change ((λ u, merged !! DfRow.index u ≫= DfRow.sale) <$> df)
    with (((λ i, merged !! i ≫= DfRow.sale) ∘ DfRow.index) <$> df).
  rewrite list_fmap_compose.
  apply fmap_sublist. unfold df. rewrite index_unified.
  apply sublist_filter.
Qed.

(** ** The rows of a merge *)

Lemma elem_of_left_join {L R K} `{EqDecision K} (left_on : L → K) (right_on : R → K)
    (left : list L) (right : list R) (p : L * option R) :
  p ∈ left_join left_on right_on left right →
  p.1 ∈ left ∧
  match p.2 with
  | Some r => r ∈ right ∧ left_on p.1 = right_on r
  | None => ∀ r, r ∈ right → left_on p.1 ≠ right_on r
  end.
Proof.
  unfold left_join. intros Hp.
  apply list_elem_of_bind in Hp as (l & Hp & Hl).
  destruct (filter (λ r, left_on l = right_on r) right) as [|r0 ms] eqn:Hms.
  - apply list_elem_of_singleton in Hp as ->. simpl. split; [done|].
    intros r Hr Heq. by apply (filter_nil_not_elem_of _ _ r Hms).
  - apply list_elem_of_fmap in Hp as (r & -> & Hr). simpl. split; [done|].
    rewrite <- Hms in Hr. by apply list_elem_of_filter in Hr as [? ?].
Qed.

Lemma elem_of_range_index r rows :
  r ∈ range_index rows → ∃ i r', r' ∈ rows ∧ r = DfRow.set_index i r'.
Proof.
  unfold range_index. intros Hr.
  apply elem_of_lookup_imap in Hr as (i & r' & -> & Hr').
  exists i, r'. split; [|done]. apply list_elem_of_lookup. eauto.
Qed.

Lemma merge_employees_row u df employees :
  u ∈ merge_employees df employees →
  match DfRow.id u with
  | Some i =>
      ∃ e, e ∈ employees ∧ Employee.id e = DfRow.employee_id u ∧ i = Employee.id e ∧
           DfRow.employee_name u = Some (Employee.employee_name e)
  | None =>
      DfRow.employee_name u = None ∧
      ∀ e, e ∈ employees → Employee.id e ≠ DfRow.employee_id u
  end.
Proof.
  unfold merge_employees. intros Hu.
  apply elem_of_range_index in Hu as (i & u' & Hu' & ->).
  apply list_elem_of_fmap in Hu' as ([r e] & -> & Hjoin).
  apply elem_of_left_join in Hjoin as [_ He]. simpl in *.
  destruct e as [e|]; simpl.
  - destruct He as [He Hid]. exists e. by split_and!.
  - split; [done|]. intros e He' Hid. by apply (He e He').
Qed.

(** ** The employee join *)

(** C8.  The Employees frame is merged exactly when it is not empty.  When
    it is empty every written record has employee_name "Unknown"; when it
    is not, a record whose employee_id is the id of no employee has a null
    employee_name, and any other record has the name of an employee with
    that id. *)
Theorem employee_join (to_datetime : list DateCell → list (option Timestamp))
    (has_unit_price : bool) (sales : list Sale.t) (products : list Product.t)
    (discounts : list Discount.t) (employees : DataFrame Employee.t) :
  let df := unified to_datetime has_unit_price sales products discounts employees in
  let before := merge_discounts (merge_products sales products) discounts in
  if empty employees then
    merge_data sales products discounts employees
    = (λ r, DfRow.set_employee (DfRow.id r) (Some "Unknown") r) <$> before ∧
    Forall (λ u, DfRow.employee_name u = Some "Unknown") df
  else
    merge_data sales products discounts employees
    = merge_employees before (rows_of employees) ∧
    Forall (λ u,
      if decide (Exists (λ e, Employee.id e = DfRow.employee_id u) (rows_of employees))
      then ∃ e, e ∈ rows_of employees ∧ Employee.id e = DfRow.employee_id u ∧
                DfRow.employee_name u = Some (Employee.employee_name e)
      else DfRow.employee_name u = None) df.
Proof.
  intros df before. unfold merge_data. fold before.
  destruct (empty employees) eqn:Hempty; simpl; (split; [done|]);
    apply Forall_forall; intros u Hu;
    apply unified_row_origin in Hu as (r & ts & Hr & _ & ->);
    apply list_elem_of_lookup_2 in Hr; unfold merge_data in Hr; fold before in Hr;
    rewrite Hempty in Hr; simpl in Hr.
  - by apply list_elem_of_fmap in Hr as (r' & -> & _).
  - apply merge_employees_row in Hr.
    change (DfRow.employee_name (unified_row has_unit_price ts r))
      with (DfRow.employee_name r).
    change (DfRow.employee_id (unified_row has_unit_price ts r))
      with (DfRow.employee_id r).
    destruct (DfRow.id r) as [i|].
    + destruct Hr as (e & He & Hid & _ & Hname).
      rewrite decide_True by (apply Exists_exists; eauto). eauto.
    + destruct Hr as [Hname Hnone].
      rewrite decide_False; [done|].
      intros (e & He & Hid)%Exists_exists. by apply (Hnone e).
Qed.

(** ** Defaults *)

(** What lines 92 and 93 leave in every written record: discount_percent
    is never null; unit_price is 100 when the Products file has no such
    column, and otherwise whatever the merge put there, null included. *)
Lemma defaults_applied (to_datetime : list DateCell → list (option Timestamp))
    (has_unit_price : bool) (sales : list Sale.t) (products : list Product.t)
    (discounts : list Discount.t) (employees : DataFrame Employee.t) :
  let merged := merge_data sales products discounts employees in
  Forall (λ u,
    is_Some (DfRow.discount_percent u) ∧
    if has_unit_price
    then ∃ r, merged !! DfRow.index u = Some r ∧ DfRow.unit_price u = DfRow.unit_price r
    else DfRow.unit_price u = Some 100%Q)
    (unified to_datetime has_unit_price sales products discounts employees).
Proof.
  intros merged. apply Forall_forall. intros u Hu.
  apply unified_row_origin in Hu as (r & ts & Hr & _ & ->).
  split.
  - simpl. unfold fillna. destruct (DfRow.discount_percent r); eauto.
  - destruct has_unit_price; [|done]. by exists r.
Qed.

(** ** Prices *)





(** ** Sums over groups *)

Section Totals.
Context {M : Type} (eqv : relation M) `{!Equivalence eqv}.
Context (op : M → M → M) (unit : M) `{!Proper (eqv ==> eqv ==> eqv) op}.
Hypothesis op_assoc : ∀ x y z, eqv (op x (op y z)) (op (op x y) z).
Hypothesis op_comm : ∀ x y, eqv (op x y) (op y x).
Hypothesis op_unit : ∀ x, eqv (op unit x) x.




End Totals.

(** ** The three summaries *)

Lemma group_keys_NoDup {K} `{EqDecision K} (le : relation K) `{!RelDecision le}
    (by_ : DfRow.t → option K) df :
  NoDup (group_keys le by_ df).
Proof.
  unfold group_keys. rewrite merge_sort_Permutation. apply NoDup_remove_dups.
Qed.

Lemma elem_of_group_keys {K} `{EqDecision K} (le : relation K) `{!RelDecision le}
    (by_ : DfRow.t → option K) df k :
  k ∈ group_keys le by_ df ↔ ∃ r, r ∈ df ∧ by_ r = Some k.
Proof.
  unfold group_keys.
  by rewrite merge_sort_Permutation, elem_of_remove_dups, list_elem_of_omap.
Qed.






Lemma filter_all {A} (P : A → Prop) `{!∀ x, Decision (P x)} (l : list A) :
  Forall P l → filter P l = l.
Proof.
  induction 1 as [|x l Hx _ IH]; [done|]. by rewrite filter_cons_True, IH.
Qed.




(** ** The other scenarios, run on the model *)

Example scenario_B_discounted_price :
  ∃ w u,
    pipeline iso_to_datetime scenario_B initial = (Normal (), w) ∧
    last (files w) = Some ("reports/full_sales_data.csv", FullSalesData [u]) ∧
    DfRow.total_price u ≡ Some 100%Q ∧
    DfRow.discounted_price u ≡ Some 90%Q.
Proof.
  eexists _, _. split; [vm_compute; reflexivity|].
  split; [reflexivity|]. split; by constructor.
Qed.

Example scenario_C_row_excluded :
  ∃ w df summary,
    pipeline iso_to_datetime scenario_C initial = (Normal (), w) ∧
    last (files w) = Some ("reports/full_sales_data.csv", FullSalesData df) ∧
    head (files w) = Some ("reports/product_sales.csv", ProductSales summary) ∧
    DfRow.index <$> df = [0; 2] ∧
    DfRow.quantity <$> df = [2; 3]%Z ∧
    Summary.total_quantity <$> summary = [5%Z].
Proof.
  eexists _, _, _. split; [vm_compute; reflexivity|]. by split_and!.
Qed.

Example scenario_D_exits :
  ∃ w,
    pipeline iso_to_datetime scenario_D initial = (SystemExit 1, w) ∧
    files w = [] ∧
    last (console w) = Some CriticalDataMissing.
Proof. eexists. split; [vm_compute; reflexivity|]. by split. Qed.


(** * More about the script *)

(** ** What a run leaves behind *)

Section Results.
Variable to_datetime : list DateCell → list (option Timestamp).

Lemma load_frames src w :
  ∃ messages,
    load src w
    = (Normal (frames_of src),
       {| console := console w ++ messages;
          directories := if bool_decide (REPORT_DIR ∈ directories w)
                         then directories w else directories w ++ [REPORT_DIR];
          files := files w |}).
Proof.
  unfold load, frames_of, read_customers, read_csv_files, read_discounts,
    fetch_employees, mbind, script_bind, log, makedirs; simpl.
  destruct (sqlite_customers src), (products_csv src), (sales_csv src),
    (discounts_txt src), (employees_api src) as [code data|];
    simpl; try destruct (bool_decide (code = 200%Z)); simpl;
    eexists; rewrite <- ?app_assoc; reflexivity.
Qed.

Lemma write_reports f rows fs :
  write "reports/full_sales_data.csv"
    (FullSalesData (assign_month
       (filtered to_datetime (products_has_unit_price f) (rows_of (sales f))
          (rows_of (products f)) (fillna_discount_percent rows) (employees f))))
    (write "reports/monthly_sales.csv"
       (MonthlySales (monthly_sales (assign_month
          (filtered to_datetime (products_has_unit_price f) (rows_of (sales f))
             (rows_of (products f)) (fillna_discount_percent rows) (employees f)))))
       (write "reports/employee_sales.csv"
          (EmployeeSales (employee_sales
             (filtered to_datetime (products_has_unit_price f) (rows_of (sales f))
                (rows_of (products f)) (fillna_discount_percent rows) (employees f))))
          (write "reports/product_sales.csv"
             (ProductSales (product_sales
                (filtered to_datetime (products_has_unit_price f) (rows_of (sales f))
                   (rows_of (products f)) (fillna_discount_percent rows) (employees f))))
             fs)))
  = other_files fs ++ reports to_datetime f rows.
Proof.
  unfold write, other_files, reports, report_paths.
  rewrite !filter_app, !list_filter_filter. simpl.
  rewrite <- !app_assoc. simpl. f_equal.
  apply list_filter_iff. intros [path table]. simpl.
  rewrite !elem_of_cons, elem_of_nil. tauto.
Qed.

Lemma gate_of_sources src :
  empty (sales (frames_of src)) || empty (products (frames_of src))
  = negb (critical_data_loaded src).
Proof.
  unfold frames_of, critical_data_loaded, empty; simpl.
  destruct (products_csv src) as [p|], (sales_csv src) as [s|]; simpl; try done.
  by destruct s as [|s0 s], (product_rows p) as [|p0 ps].
Qed.

(** The result of the script, by what the reads gave. *)
Lemma pipeline_result src w :
  ∃ loading,
    pipeline to_datetime src w
    = let dirs := if bool_decide (REPORT_DIR ∈ directories w)
                  then directories w else directories w ++ [REPORT_DIR] in
      if critical_data_loaded src then
        match discounts_txt src with
        | Loaded rows =>
            (Normal (),
             {| console := console w ++ loading ++
                  [ValidatingData; MergingData; CleaningAndTransforming;
                   PerformingAnalysis; SavingReports; PipelineCompleted];
                directories := dirs;
                files := other_files (files w)
                         ++ reports to_datetime (frames_of src) rows |})
        | Failed _ =>
            (KeyError "discount_percent",
             {| console := console w ++ loading ++ [ValidatingData];
                directories := dirs; files := files w |})
        end
      else
        (SystemExit 1,
         {| console := console w ++ loading ++ [ValidatingData; CriticalDataMissing];
            directories := dirs; files := files w |}).
Proof.
  destruct (load_frames src w) as [loading Hload]. exists loading.
  unfold pipeline, run, mbind, script_bind. rewrite Hload.
  pose proof (gate_of_sources src) as Hgate.
  destruct (critical_data_loaded src); simpl in Hgate.
  - rewrite validate_open by done.
    destruct (discounts_txt src) as [rows|e] eqn:Hd.
    + rewrite (process_completes to_datetime _ _ rows)
        by (unfold frames_of; simpl; by rewrite Hd).
      rewrite write_reports. simpl. by rewrite <- !app_assoc.
    + rewrite process_discounts_without_columns
        by (unfold frames_of; simpl; by rewrite Hd).
      unfold say. simpl. by rewrite <- !app_assoc.
  - rewrite validate_closed by done. unfold say. simpl. by rewrite <- !app_assoc.
Qed.

End Results.



(** X3.  Line 10 runs before anything can fail: however the script ends,
    the report directory exists afterwards, it is created only when it was
    not there, and no other directory is touched. *)
Theorem report_directory_created (to_datetime : list DateCell → list (option Timestamp))
    (src : Sources) (w : World) :
  let w' := (pipeline to_datetime src w).2 in
  REPORT_DIR ∈ directories w' ∧
  directories w'
  = if bool_decide (REPORT_DIR ∈ directories w)
    then directories w else directories w ++ [REPORT_DIR].
Proof.
  destruct (pipeline_result to_datetime src w) as [loading ->]. cbv zeta.
  assert (REPORT_DIR ∈ if bool_decide (REPORT_DIR ∈ directories w)
                        then directories w else directories w ++ [REPORT_DIR]).
  { case_bool_decide; [done|]. apply elem_of_app. right. by left. }
  destruct (critical_data_loaded src); [|done].
  by destruct (discounts_txt src).
Qed.

Lemma other_files_reports (to_datetime : list DateCell → list (option Timestamp))
    f rows :
  other_files (reports to_datetime f rows) = [].
Proof. done. Qed.

Lemma other_files_idemp fs : other_files (other_files fs) = other_files fs.
Proof.
  unfold other_files. rewrite list_filter_filter.
  apply list_filter_iff. tauto.
Qed.

(** X4.  Running the script again on the same sources leaves the files as
    the first run left them: the reports are replaced by equal ones, in the
    same places, and nothing else changes. *)
Theorem rerun_keeps_files (to_datetime : list DateCell → list (option Timestamp))
    (src : Sources) (w : World) :
  let w' := (pipeline to_datetime src w).2 in
  files (pipeline to_datetime src w').2 = files w'.
Proof.
  cbv zeta.
  destruct (pipeline_result to_datetime src (pipeline to_datetime src w).2)
    as [loading' ->].
  destruct (pipeline_result to_datetime src w) as [loading ->]. cbv zeta.
  destruct (critical_data_loaded src); [|done].
  destruct (discounts_txt src) as [rows|e]; [|done].
  cbn [snd files]. unfold other_files at 1.
  rewrite filter_app. fold (other_files (other_files (files w))).
  fold (other_files (reports to_datetime (frames_of src) rows)).
  by rewrite other_files_idemp, other_files_reports, app_nil_r.
Qed.

(** X5.  The customers table is loaded and never used: whatever the query
    gives, rows or an exception, the script ends the same way and leaves
    the same files and directories. *)
Theorem customers_never_used (to_datetime : list DateCell → list (option Timestamp))
    (src : Sources) (c : Read (list Customer.t)) (w : World) :
  let r := pipeline to_datetime src w in
  let r' := pipeline to_datetime (with_customers c src) w in
  r'.1 = r.1 ∧ files r'.2 = files r.2 ∧ directories r'.2 = directories r.2.
Proof.
  cbv zeta.
  destruct (pipeline_result to_datetime (with_customers c src) w) as [loading' ->].
  destruct (pipeline_result to_datetime src w) as [loading ->]. cbv zeta.
  change (critical_data_loaded (with_customers c src))
    with (critical_data_loaded src).
  change (discounts_txt (with_customers c src)) with (discounts_txt src).
  destruct (critical_data_loaded src); [|done].
  by destruct (discounts_txt src).
Qed.


(** ** Where the columns of a merged row come from *)

Lemma merge_data_row u sales products discounts employees :
  u ∈ merge_data sales products discounts employees →
  ∃ s p d,
    s ∈ sales ∧
    paired Sale.product_id Product.product_id products s p ∧
    paired Sale.product_id Discount.product_id discounts s d ∧
    DfRow.sale u = Some s ∧
    DfRow.product_name u = Product.product_name <$> p ∧
    DfRow.unit_price u = p ≫= Product.unit_price ∧
    DfRow.discount_percent u = d ≫= Discount.discount_percent.
Proof.
  intros Hu.
  assert (∃ r, r ∈ merge_discounts (merge_products sales products) discounts ∧
               DfRow.sale u = DfRow.sale r ∧
               DfRow.product_name u = DfRow.product_name r ∧
               DfRow.unit_price u = DfRow.unit_price r ∧
               DfRow.discount_percent u = DfRow.discount_percent r)
    as (r & Hr & -> & -> & -> & ->).
  { unfold merge_data in Hu. destruct (empty employees); simpl in Hu.
    - apply list_elem_of_fmap in Hu as (r & -> & Hr). by exists r.
    - apply elem_of_range_index in Hu as (i & u' & Hu' & ->).
      apply list_elem_of_fmap in Hu' as ([r e] & -> & Hjoin).
      apply elem_of_left_join in Hjoin as [Hr _]. by exists r. }
  apply elem_of_range_index in Hr as (i & r' & Hr' & ->).
  apply list_elem_of_fmap in Hr' as ([r1 d] & -> & Hjoin).
  apply elem_of_left_join in Hjoin as [Hr1 Hd]. simpl in Hr1, Hd.
  apply elem_of_range_index in Hr1 as (j & r1' & Hr1' & ->).
  apply list_elem_of_fmap in Hr1' as ([s p] & -> & Hjoin).
  apply elem_of_left_join in Hjoin as [Hs Hp]. simpl in Hs, Hp.
  exists s, p, d. split_and!; try done.
  apply sale_joined_with_product.
Qed.

Lemma unified_row_source (to_datetime : list DateCell → list (option Timestamp))
    has_unit_price sales products discounts employees u :
  u ∈ unified to_datetime has_unit_price sales products discounts employees →
  ∃ r ts s p d,
    u = unified_row has_unit_price ts r ∧
    merge_data sales products discounts employees !! DfRow.index u = Some r ∧
    to_datetime (DfRow.sale_date <$> merge_data sales products discounts employees)
      !! DfRow.index u = Some (Some ts) ∧
    s ∈ sales ∧
    paired Sale.product_id Product.product_id products s p ∧
    paired Sale.product_id Discount.product_id discounts s d ∧
    DfRow.sale r = Some s ∧
    DfRow.product_name r = Product.product_name <$> p ∧
    DfRow.unit_price r = p ≫= Product.unit_price ∧
    DfRow.discount_percent r = d ≫= Discount.discount_percent.
Proof.
  intros Hu. apply unified_row_origin in Hu as (r & ts & Hr & Hts & ->).
  pose proof (list_elem_of_lookup_2 _ _ _ Hr) as Hin.
  apply merge_data_row in Hin
    as (s & p & d & Hs & Hp & Hd & Hsale & Hname & Hprice & Hdisc).
  by exists r, ts, s, p, d.
Qed.


(** X7.  discount_percent of a written record is never null: it is the
    percentage of a Discounts row with the record's product_id, and 0 when
    that percentage is null or Discounts has no row with that id. *)
Theorem discount_percent_resolved (to_datetime : list DateCell → list (option Timestamp))
    (has_unit_price : bool) (sales : list Sale.t) (products : list Product.t)
    (discounts : list Discount.t) (employees : DataFrame Employee.t) :
  Forall (λ u,
    ∃ d, paired DfRow.product_id Discount.product_id discounts u d ∧
         DfRow.discount_percent u
         = Some (default 0%Q (d ≫= Discount.discount_percent)))
    (unified to_datetime has_unit_price sales products discounts employees).
Proof.
  apply Forall_forall. intros u Hu.
  apply unified_row_source in Hu
    as (r & ts & s & p & d & -> & _ & _ & _ & _ & Hd & Hsale & _ & _ & Hdisc).
  apply sale_product_id in Hsale.
  assert (DfRow.product_id (unified_row has_unit_price ts r) = Sale.product_id s)
    as Hid by done.
  exists d. unfold paired in *. rewrite Hid. split; [done|].
  simpl. rewrite Hdisc. by destruct (d ≫= Discount.discount_percent).
Qed.


(** ** Prices, once more *)





(** ** What the script leaves alone *)

Lemma sale_columns r s :
  DfRow.sale r = Some s →
  DfRow.product_id r = Sale.product_id s ∧
  DfRow.employee_id r = Sale.employee_id s ∧
  DfRow.quantity r = Sale.quantity s ∧
  DfRow.sale_date r = Text (Sale.sale_date s).
Proof. unfold DfRow.sale. destruct (DfRow.sale_date r); naive_solver. Qed.

(** X10.  Every written record is a row of Sales with more columns: its
    product_id, employee_id and quantity are those of a Sales row, its
    sale_date is the timestamp that the text of that row converts to, and
    its month is the year and month of that timestamp. *)
Theorem sales_columns_kept (to_datetime : list DateCell → list (option Timestamp))
    (has_unit_price : bool) (sales : list Sale.t) (products : list Product.t)
    (discounts : list Discount.t) (employees : DataFrame Employee.t) :
  let merged := merge_data sales products discounts employees in
  Forall (λ u,
    ∃ s ts,
      s ∈ sales ∧
      DfRow.product_id u = Sale.product_id s ∧
      DfRow.employee_id u = Sale.employee_id s ∧
      DfRow.quantity u = Sale.quantity s ∧
      (DfRow.sale_date <$> merged) !! DfRow.index u = Some (Text (Sale.sale_date s)) ∧
      to_datetime (DfRow.sale_date <$> merged) !! DfRow.index u = Some (Some ts) ∧
      DfRow.sale_date u = Stamp ts ∧
      DfRow.month u = Some {| Period.year := year ts; Period.month := month ts |})
    (unified to_datetime has_unit_price sales products discounts employees).
Proof.
  intros merged. apply Forall_forall. intros u Hu.
  apply unified_row_source in Hu
    as (r & ts & s & p & d & Hu & Hr & Hts & Hs & _ & _ & Hsale & _).
  apply sale_columns in Hsale as (Hpid & Heid & Hq & Hdate).
  exists s, ts. fold merged in Hr, Hts.
  rewrite list_lookup_fmap, Hr, Hts, Hu. simpl. rewrite Hdate.
  by split_and!.
Qed.

(** ** How many rows the merges give *)

Lemma length_bind_replicate {A B} (n : A → nat) (g : A → B) (l : list A) :
  length (l ≫= λ x, replicate (n x) (g x)) = sum_list (n <$> l).
Proof.
  induction l as [|x l IH]; [done|].
  rewrite bind_cons, length_app, length_replicate, IH. done.
Qed.

Lemma length_le_sum {A} (n : A → nat) (l : list A) :
  (∀ x, 1 ≤ n x) → length l ≤ sum_list (n <$> l).
Proof.
  intros Hn. induction l as [|x l IH]; [done|].
  rewrite fmap_cons. pose proof (Hn x).
  change (sum_list (n x :: (n <$> l))) with (n x + sum_list (n <$> l)).
  simpl length. lia.
Qed.

Lemma copies_at_least_one {L R K} `{EqDecision K} (left_on : L → K)
    (right_on : R → K) (right : list R) (l : L) :
  1 ≤ copies left_on right_on right l.
Proof. unfold copies. destruct (matches left_on right_on right l); lia. Qed.

Lemma multiplicity_positive products discounts employees s :
  1 ≤ multiplicity products discounts employees s.
Proof.
  unfold multiplicity.
  pose proof (copies_at_least_one Sale.product_id Product.product_id products s).
  pose proof (copies_at_least_one Sale.product_id Discount.product_id discounts s).
  pose proof (copies_at_least_one Sale.employee_id Employee.id (rows_of employees) s).
  destruct (empty employees); nia.
Qed.

(** X11.  Whatever the tables hold, duplicates included, the merged frame
    has for each Sales row as many rows as the product of its numbers of
    matches in Products, in Discounts and (when Employees is joined) in
    Employees, a table without a match counting for one: no sale is lost by
    a merge, and the written frame has at most the rows of the merged
    one. *)
Theorem merged_row_count (to_datetime : list DateCell → list (option Timestamp))
    (has_unit_price : bool) (sales : list Sale.t) (products : list Product.t)
    (discounts : list Discount.t) (employees : DataFrame Employee.t) :
  let merged := merge_data sales products discounts employees in
  length merged = sum_list (multiplicity products discounts employees <$> sales) ∧
  length sales ≤ length merged ∧
  length (unified to_datetime has_unit_price sales products discounts employees)
  ≤ length merged.
Proof.
  intros merged.
  assert (length merged
          = sum_list (multiplicity products discounts employees <$> sales)) as Hlen.
  { rewrite <- (length_fmap DfRow.sale merged). unfold merged.
    rewrite sale_merge_data. apply length_bind_replicate. }
  split_and!; [done| |].
  - rewrite Hlen. apply length_le_sum, multiplicity_positive.
  - rewrite <- (length_fmap DfRow.index (unified _ _ _ _ _ _)), index_unified.
    etrans; [apply length_filter|]. by rewrite length_seq.
Qed.

(** ** The order of the summaries *)




(** ** When no date converts *)

Lemma omap_all_None {A B} (f : A → option B) (l : list A) :
  (∀ x, x ∈ l → f x = None) → omap f l = [].
Proof.
  induction l as [|x l IH]; intros Hf; [done|].
  csimpl. rewrite (Hf x) by left. apply IH. intros y Hy. apply Hf. by right.
Qed.

Lemma filtered_without_dates (to_datetime : list DateCell → list (option Timestamp))
    has_unit_price sales products discounts employees :
  Forall (λ c, c = None)
    (to_datetime (DfRow.sale_date <$> merge_data sales products discounts employees)) →
  filtered to_datetime has_unit_price sales products discounts employees = [].
Proof.
  intros Hnone.
  apply (fmap_nil_inv (λ r, DfRow.set_month (month_of (DfRow.sale_date r)) r)).
  change (unified to_datetime has_unit_price sales products discounts employees = []).
  rewrite unified_rows. apply omap_all_None. intros r _.
  destruct (to_datetime _ !! DfRow.index r) as [c|] eqn:Hc; [|done].
  apply list_elem_of_lookup_2 in Hc.
  by rewrite (proj1 (Forall_forall _ _) Hnone c Hc).
Qed.

(** X13.  When the gate is passed, the discounts file was read and no
    sale_date converts, the script still completes: it writes the four
    reports, each of them without a row. *)
Theorem no_valid_date_empty_reports
    (to_datetime : list DateCell → list (option Timestamp))
    (src : Sources) (rows : list Discount.t) (w : World) :
  critical_data_loaded src = true →
  discounts_txt src = Loaded rows →
  Forall (λ c, c = None)
    (to_datetime
       (DfRow.sale_date <$>
          merge_data (rows_of (sales (frames_of src)))
            (rows_of (products (frames_of src)))
            (fillna_discount_percent rows) (employees (frames_of src)))) →
  ∃ w',
    pipeline to_datetime src w = (Normal (), w') ∧
    files w' = other_files (files w) ++
      [ ("reports/product_sales.csv", ProductSales []);
        ("reports/employee_sales.csv", EmployeeSales []);
        ("reports/monthly_sales.csv", MonthlySales []);
        ("reports/full_sales_data.csv", FullSalesData []) ].
Proof.
  intros Hgate Hd Hnone.
  destruct (pipeline_result to_datetime src w) as [loading ->].
  rewrite Hgate, Hd. cbv zeta. eexists. split; [reflexivity|].
  cbn [files]. unfold reports.
  by rewrite (filtered_without_dates to_datetime _ _ _ _ _ Hnone).
Qed.

Lemma no_valid_date_empty_reports_run :
  critical_data_loaded no_valid_date_sources = true ∧
  discounts_txt no_valid_date_sources = Loaded [] ∧
  Forall (λ c, c = None)
    (iso_to_datetime
       (DfRow.sale_date <$>
          merge_data (rows_of (sales (frames_of no_valid_date_sources)))
            (rows_of (products (frames_of no_valid_date_sources)))
            (fillna_discount_percent [])
            (employees (frames_of no_valid_date_sources)))) ∧
  ∃ w',
    pipeline iso_to_datetime no_valid_date_sources initial = (Normal (), w') ∧
    files w' = other_files (files initial) ++
      [ ("reports/product_sales.csv", ProductSales []);
        ("reports/employee_sales.csv", EmployeeSales []);
        ("reports/monthly_sales.csv", MonthlySales []);
        ("reports/full_sales_data.csv", FullSalesData []) ].
Proof.
  split; [reflexivity|]. split; [reflexivity|].
  split; [by repeat constructor|].
  apply (no_valid_date_empty_reports iso_to_datetime no_valid_date_sources []);
    [reflexivity|reflexivity|by repeat constructor].
Defined.

(** ** Line 79 and line 92 *)

Lemma filter_fmap_pre {A B} (P : B → Prop) `{!∀ y, Decision (P y)} (h : A → B)
    (l : list A) :
  filter P (h <$> l) = h <$> filter (λ x, P (h x)) l.
Proof.
  induction l as [|x l IH]; [done|].
  rewrite fmap_cons, !filter_cons, IH. by destruct (decide (P (h x))).
Qed.

Lemma left_join_fmap_right {L R R' K} `{EqDecision K} (left_on : L → K)
    (right_on : R → K) (right_on' : R' → K) (h : R → R') left right :
  (∀ r, right_on' (h r) = right_on r) →
  left_join left_on right_on' left (h <$> right)
  = (λ p : L * option R, (p.1, h <$> p.2)) <$> left_join left_on right_on left right.
Proof.
  intros Hkey. unfold left_join.
  induction left as [|l left IH]; [done|].
  rewrite !bind_cons, fmap_app, IH. f_equal.
  rewrite filter_fmap_pre.
  rewrite (list_filter_iff _ (λ r, left_on l = right_on r))
    by (intros r; by rewrite Hkey).
  destruct (filter _ right) as [|r ms]; [done|].
  rewrite fmap_cons. cbv iota. rewrite <- fmap_cons.
  by rewrite <- !list_fmap_compose.
Qed.

Lemma left_join_fmap_left {L L' R K} `{EqDecision K} (left_on : L → K)
    (left_on' : L' → K) (right_on : R → K) (k : L → L') left right :
  (∀ l, left_on' (k l) = left_on l) →
  left_join left_on' right_on (k <$> left) right
  = (λ p : L * option R, (k p.1, p.2)) <$> left_join left_on right_on left right.
Proof.
  intros Hkey. unfold left_join.
  induction left as [|l left IH]; [done|].
  rewrite fmap_cons, !bind_cons, fmap_app, IH. f_equal.
  rewrite (list_filter_iff _ (λ r, left_on l = right_on r))
    by (intros r; by rewrite Hkey).
  destruct (filter _ right) as [|r ms]; [done|].
  rewrite <- !list_fmap_compose. done.
Qed.

Lemma fill_merge_discounts df discounts :
  fill_discount_percent (merge_discounts df (fillna_discount_percent discounts))
  = fill_discount_percent (merge_discounts df discounts).
Proof.
  unfold fill_discount_percent, merge_discounts, range_index, fillna_discount_percent.
  rewrite (left_join_fmap_right _ Discount.product_id) by done.
  rewrite !fmap_imap, <- !list_fmap_compose, !imap_fmap.
  apply imap_ext. intros i [r [d|]] _; [|done].
  simpl. by destruct (Discount.discount_percent d).
Qed.

Lemma fill_merge_employees df employees :
  fill_discount_percent (merge_employees df employees)
  = merge_employees (fill_discount_percent df) employees.
Proof.
  unfold fill_discount_percent, merge_employees, range_index.
  rewrite (left_join_fmap_left DfRow.employee_id) by done.
  rewrite !fmap_imap, <- !list_fmap_compose, !imap_fmap.
  apply imap_ext. by intros i [r e] _.
Qed.

Lemma fill_unknown df :
  fill_discount_percent ((λ r, DfRow.set_employee (DfRow.id r) (Some "Unknown") r) <$> df)
  = (λ r, DfRow.set_employee (DfRow.id r) (Some "Unknown") r) <$> fill_discount_percent df.
Proof. unfold fill_discount_percent. by rewrite <- !list_fmap_compose. Qed.

(** X14.  Filling the null percentages of the Discounts frame before the
    merge (line 79) changes nothing in the frame the reports are made of:
    line 92 fills the same cells after the merge.  With or without line 79
    the frame after the date filter, and the written frame, are the
    same. *)
Theorem discounts_filled_twice (to_datetime : list DateCell → list (option Timestamp))
    (has_unit_price : bool) (sales : list Sale.t) (products : list Product.t)
    (discounts : list Discount.t) (employees : DataFrame Employee.t) :
  filtered to_datetime has_unit_price sales products
    (fillna_discount_percent discounts) employees
  = filtered to_datetime has_unit_price sales products discounts employees ∧
  unified to_datetime has_unit_price sales products
    (fillna_discount_percent discounts) employees
  = unified to_datetime has_unit_price sales products discounts employees.
Proof.
  assert (fill_discount_percent
            (merge_data sales products (fillna_discount_percent discounts) employees)
          = fill_discount_percent (merge_data sales products discounts employees))
    as Hfill.
  { unfold merge_data. destruct (empty employees); simpl.
    - by rewrite !fill_unknown, fill_merge_discounts.
    - by rewrite !fill_merge_employees, fill_merge_discounts. }
  assert (filtered to_datetime has_unit_price sales products
            (fillna_discount_percent discounts) employees
          = filtered to_datetime has_unit_price sales products discounts employees)
    as Hfiltered.
  { unfold filtered, transform. by rewrite Hfill. }
  split; [done|]. unfold unified. by rewrite Hfiltered.
Qed.

(** ** When the API gives no employee *)

Lemma singleton_of_constant {A} (a : A) (l : list A) :
  NoDup l → (∀ x, x ∈ l → x = a) → a ∈ l → l = [a].
Proof.
  intros Hnd Hall Hin. destruct l as [|x [|y l]].
  - by apply elem_of_nil in Hin.
  - by rewrite (Hall x) by left.
  - apply NoDup_cons in Hnd as [Hx _]. destruct Hx.
    rewrite (Hall x) by left. rewrite (Hall y) by (right; left). left.
Qed.

Lemma unavailable_api_frame src :
  api_unavailable (employees_api src) = true →
  empty (employees (frames_of src)) = true.
Proof.
  unfold api_unavailable, frames_of; simpl.
  destruct (employees_api src) as [code data|]; [|done].
  intros Hapi%bool_decide_eq_true.
  case_bool_decide; [|done]. by destruct Hapi as [?| ->].
Qed.

Lemma unknown_without_employees (to_datetime : list DateCell → list (option Timestamp))
    has_unit_price sales products discounts employees :
  empty employees = true →
  Forall (λ u, DfRow.employee_name u = Some "Unknown")
    (filtered to_datetime has_unit_price sales products discounts employees).
Proof.
  intros Hempty. apply Forall_forall. intros r Hr.
  apply (list_elem_of_fmap_2 (λ r, DfRow.set_month (month_of (DfRow.sale_date r)) r))
    in Hr.
  change (DfRow.set_month (month_of (DfRow.sale_date r)) r
          ∈ unified to_datetime has_unit_price sales products discounts employees)
    in Hr.
  apply unified_row_origin in Hr as (r' & ts & Hr' & _ & Heq).
  apply list_elem_of_lookup_2 in Hr'. unfold merge_data in Hr'.
  rewrite Hempty in Hr'. simpl in Hr'.
  apply list_elem_of_fmap in Hr' as (r'' & -> & _).
  change (DfRow.employee_name r)
    with (DfRow.employee_name (DfRow.set_month (month_of (DfRow.sale_date r)) r)).
  by rewrite Heq.
Qed.

Lemma one_group_of_unknown (df : list DfRow.t) :
  Forall (λ u, DfRow.employee_name u = Some "Unknown") df →
  employee_sales df
  = match df with
    | [] => []
    | _ => [ {| Summary.key := "Unknown";
                Summary.total_quantity := sum_quantity df;
                Summary.total_sales := sum_discounted_price df |} ]
    end.
Proof.
  intros Hall. destruct df as [|r df']; [done|].
  set (df := r :: df') in *.
  unfold employee_sales, groupby_sales.
  rewrite (singleton_of_constant "Unknown"
             (group_keys String.le DfRow.employee_name df)).
  - simpl. unfold group. by rewrite (filter_all _ df Hall).
  - apply group_keys_NoDup.
  - intros k (u & Hu & Hk)%elem_of_group_keys.
    rewrite (proj1 (Forall_forall _ _) Hall u Hu) in Hk. by injection Hk.
  - apply elem_of_group_keys. exists r. split; [by left|].
    apply (proj1 (Forall_forall _ _) Hall). by left.
Qed.

(** X15.  When the API gives no employee (an exception, a status other
    than 200, or an empty list) every record has employee_name "Unknown",
    and the employee summary has no line when the frame has no row and
    otherwise the single line "Unknown", with the quantity and the sales
    of the whole frame. *)
Theorem unavailable_api_one_group (to_datetime : list DateCell → list (option Timestamp))
    (src : Sources) (has_unit_price : bool) (sales : list Sale.t)
    (products : list Product.t) (discounts : list Discount.t) :
  api_unavailable (employees_api src) = true →
  let df := filtered to_datetime has_unit_price sales products discounts
              (employees (frames_of src)) in
  Forall (λ u, DfRow.employee_name u = Some "Unknown") df ∧
  employee_sales df
  = match df with
    | [] => []
    | _ => [ {| Summary.key := "Unknown";
                Summary.total_quantity := sum_quantity df;
                Summary.total_sales := sum_discounted_price df |} ]
    end.
Proof.
  intros Hapi df.
  pose proof (unknown_without_employees to_datetime has_unit_price sales products
                discounts _ (unavailable_api_frame src Hapi)) as Hall.
  fold df in Hall. split; [done|]. by apply one_group_of_unknown.
Qed.

Lemma unavailable_api_one_group_scenario_A :
  api_unavailable (employees_api scenario_A) = true ∧
  let df := filtered iso_to_datetime true [sale_of_two_widgets] [widget] []
              (employees (frames_of scenario_A)) in
  Forall (λ u, DfRow.employee_name u = Some "Unknown") df ∧
  employee_sales df
  = match df with
    | [] => []
    | _ => [ {| Summary.key := "Unknown";
                Summary.total_quantity := sum_quantity df;
                Summary.total_sales := sum_discounted_price df |} ]
    end.
Proof.
  split; [reflexivity|].
  apply (unavailable_api_one_group iso_to_datetime scenario_A true
           [sale_of_two_widgets] [widget] []).
  reflexivity.
Defined.
